(** * SUTUTEH backend: OTP verification and password recovery

    A shallow embedding of [consultas/registro.js] (both of its versions),
    [consultas/recuperarContrasena.js] and the answer handlers of
    [consultas/preguntas.js]: the breach checker [isPasswordPwned], the
    registration handlers [/checkPasswordCompromised], [/enviarCodigo],
    [/validarCodigo], [/actualizarUsuario], [/validarUsuario],
    [/validarCaptcha], the recovery handlers [/verificarCorreoCaptcha],
    [/enviarCodigo], [/verificarCodigo], [/actualizarContrasena], and
    [/:id/responder], [/:id/responder-registrado], [/:id/responder-admin]
    and [GET /] of the questions.

    Conventions.
    - A JavaScript string is a [string], one [ascii] per code unit (code
      units below 256).
    - A timestamp ([Date], [DATETIME]) is a [Z], milliseconds since the epoch;
      a nullable column is an [option].
    - A handler is a function from the values the outside world hands to it
      during one request (clock, random draw, salt, remote answers), the
      request body and the state (tables and mail outbox) to the HTTP
      response and the new state.
    - The database answers every query; a table is the list of its rows, a
      [SELECT] keeps their order, an [UPDATE] changes the columns it sets
      and no other. *)

From Stdlib Require Import ZArith List String Ascii Bool Lia QArith Qround Lqa.
From Stdlib Require Import DecimalString DecimalPos DecimalFacts.
Import ListNotations.

Local Open Scope string_scope.
Local Open Scope Z_scope.

(** ** JavaScript string primitives *)

Module JS.

(** [s.split(sep)] for a one-character separator: never empty, the empty
    string splits into one empty piece. *)
Fixpoint split (sep : ascii) (s : string) : list string :=
  match s with
  | EmptyString => [EmptyString]
  | String c rest =>
      if Ascii.eqb c sep then EmptyString :: split sep rest
      else match split sep rest with
           | [] => [String c EmptyString]
           | piece :: pieces => String c piece :: pieces
           end
  end.

(** White space and line terminators, as [trim] and [parseInt] skip them
    (tab, LF, VT, FF, CR, space, no-break space). *)
Definition isWhiteSpace (c : ascii) : bool :=
  let n := nat_of_ascii c in
  ((9 <=? n) && (n <=? 13))%nat || (n =? 32)%nat || (n =? 160)%nat.

Fixpoint trimStart (s : string) : string :=
  match s with
  | String c rest => if isWhiteSpace c then trimStart rest else s
  | EmptyString => EmptyString
  end.

Fixpoint trimEnd (s : string) : string :=
  match s with
  | EmptyString => EmptyString
  | String c rest =>
      match trimEnd rest with
      | EmptyString => if isWhiteSpace c then EmptyString else String c EmptyString
      | kept => String c kept
      end
  end.

Definition trim (s : string) : string := trimEnd (trimStart s).

Definition isDigit (c : ascii) : bool :=
  let n := nat_of_ascii c in ((48 <=? n) && (n <=? 57))%nat.

Definition digitValue (c : ascii) : Z := Z.of_nat (nat_of_ascii c) - 48.

(** The decimal digits a string starts with, read left to right:
    [(value, how many)]. *)
Fixpoint leadingDigits (acc : Z) (seen : nat) (s : string) : Z * nat :=
  match s with
  | String c rest =>
      if isDigit c then leadingDigits (10 * acc + digitValue c) (S seen) rest
      else (acc, seen)
  | EmptyString => (acc, seen)
  end.

(** [parseInt(s, 10)]; [None] is NaN. Leading white space, one optional
    sign, then the longest run of digits; what follows is ignored. *)
Definition parseInt (s : string) : option Z :=
  let body := trimStart s in
  let '(negative, digits) :=
    match body with
    | String "-" rest => (true, rest)
    | String "+" rest => (false, rest)
    | _ => (false, body)
    end in
  match leadingDigits 0 0 digits with
  | (_, O) => None
  | (v, _) => Some (if negative then - v else v)
  end.

(** [s.substring(from)] and [s.substring(0, to)]. *)
Fixpoint substringFrom (from : nat) (s : string) : string :=
  match from, s with
  | S k, String _ rest => substringFrom k rest
  | _, _ => s
  end.

Fixpoint substringTo (to : nat) (s : string) : string :=
  match to, s with
  | S k, String c rest => String c (substringTo k rest)
  | _, _ => EmptyString
  end.

Definition upperChar (c : ascii) : ascii :=
  let n := nat_of_ascii c in
  if ((97 <=? n) && (n <=? 122))%nat then ascii_of_nat (n - 32) else c.

(** [s.toUpperCase()] on ASCII text (a hexadecimal digest here). *)
Fixpoint toUpperCase (s : string) : string :=
  match s with
  | String c rest => String (upperChar c) (toUpperCase rest)
  | EmptyString => EmptyString
  end.

(** [s.replace(pattern, by)] with a string pattern: the first occurrence
    only. *)
Fixpoint replace (pattern by_ s : string) : string :=
  if prefix pattern s then by_ ++ substringFrom (String.length pattern) s
  else match s with
       | String c rest => String c (replace pattern by_ rest)
       | EmptyString => EmptyString
       end.

(** [n.toString()] of an integer. *)
Definition toString (n : Z) : string := NilZero.string_of_int (Z.to_int n).

(** Truthiness of a nullable string: [null] and the empty string are
    falsy. *)
Definition truthy (v : option string) : bool :=
  match v with
  | Some (String _ _) => true
  | _ => false
  end.

End JS.

(** ** SHA-1, as [crypto.createHash("sha1").update(s).digest("hex")] *)

Module SHA1.

Definition w32 (x : Z) : Z := x mod 2 ^ 32.

Definition rotl (n x : Z) : Z :=
  w32 (Z.lor (Z.shiftl x n) (Z.shiftr x (32 - n))).

Definition not32 (x : Z) : Z := Z.lxor x 0xFFFFFFFF.

(** [update(string)] hashes the UTF-8 encoding of the string. *)
Fixpoint utf8 (s : string) : list Z :=
  match s with
  | EmptyString => []
  | String c rest =>
      let n := Z.of_nat (nat_of_ascii c) in
      if n <? 128 then (n :: utf8 rest)%list
      else (Z.lor 0xC0 (Z.shiftr n 6) :: Z.lor 0x80 (Z.land n 0x3F) :: utf8 rest)%list
  end.

(** Padding: a [0x80] byte, zeros up to 56 modulo 64, the bit length on 8
    bytes, big-endian. *)
Definition pad (msg : list Z) : list Z :=
  let len := Z.of_nat (List.length msg) in
  let zeros := Z.to_nat ((55 - len) mod 64) in
  let bits := 8 * len in
  (msg ++ [0x80] ++ repeat 0 zeros
       ++ map (fun i => Z.shiftr bits (8 * (7 - Z.of_nat i)) mod 256) (seq 0 8))%list.

Fixpoint words (bytes : list Z) : list Z :=
  match bytes with
  | a :: b :: c :: d :: rest =>
      (Z.shiftl a 24 + Z.shiftl b 16 + Z.shiftl c 8 + d) :: words rest
  | _ => []
  end.

(** The message schedule, most recent word first: [rev_w] holds
    [w(t-1), w(t-2), ...]. *)
Fixpoint schedule (n : nat) (rev_w : list Z) : list Z :=
  match n with
  | O => rev_w
  | S k =>
      let w i := nth i rev_w 0 in
      schedule k
        (rotl 1 (Z.lxor (Z.lxor (w 2%nat) (w 7%nat)) (Z.lxor (w 13%nat) (w 15%nat)))
           :: rev_w)
  end.

Definition state : Type := Z * Z * Z * Z * Z.

Definition round (t : nat) (st : state) (wt : Z) : state :=
  let '(a, b, c, d, e) := st in
  let '(f, k) :=
    if (t <? 20)%nat then (Z.lor (Z.land b c) (Z.land (not32 b) d), 0x5A827999)
    else if (t <? 40)%nat then (Z.lxor (Z.lxor b c) d, 0x6ED9EBA1)
    else if (t <? 60)%nat then
      (Z.lor (Z.lor (Z.land b c) (Z.land b d)) (Z.land c d), 0x8F1BBCDC)
    else (Z.lxor (Z.lxor b c) d, 0xCA62C1D6) in
  (w32 (rotl 5 a + f + e + k + wt), a, rotl 30 b, c, d).

Fixpoint rounds (t : nat) (ws : list Z) (st : state) : state :=
  match ws with
  | [] => st
  | wt :: rest => rounds (S t) rest (round t st wt)
  end.

Definition compress (h : state) (block : list Z) : state :=
  let ws := rev (schedule 64 (rev (words block))) in
  let '(h0, h1, h2, h3, h4) := h in
  let '(a, b, c, d, e) := rounds 0 ws h in
  (w32 (h0 + a), w32 (h1 + b), w32 (h2 + c), w32 (h3 + d), w32 (h4 + e)).

Fixpoint blocks (n : nat) (bytes : list Z) (h : state) : state :=
  match n with
  | O => h
  | S k => blocks k (skipn 64 bytes) (compress h (firstn 64 bytes))
  end.

Definition hexDigit (n : Z) : ascii :=
  ascii_of_nat (Z.to_nat (if n <? 10 then 48 + n else 87 + n)).

Definition hex32 (x : Z) : string :=
  string_of_list_ascii
    (map (fun i => hexDigit (Z.shiftr x (4 * (7 - Z.of_nat i)) mod 16)) (seq 0 8)).

Definition digest_hex (s : string) : string :=
  let bytes := pad (utf8 s) in
  let '(h0, h1, h2, h3, h4) :=
    blocks (Nat.div (List.length bytes) 64) bytes
      (0x67452301, 0xEFCDAB89, 0x98BADCFE, 0x10325476, 0xC3D2E1F0) in
  hex32 h0 ++ hex32 h1 ++ hex32 h2 ++ hex32 h3 ++ hex32 h4.

End SHA1.

(** ** The breach checker *)

(** What [await axios.get(url)] gives back: a rejected promise, or the
    response body. *)
Inductive axios_result : Type :=
| Throws
| Data (data : string).

(** The range API, from the five-character prefix of the request URL to
    what the request gives back. *)
Definition range_api : Type := string -> axios_result.

Definition sha1Hash (password : string) : string :=
  JS.toUpperCase (SHA1.digest_hex password).

Definition prefix (password : string) : string :=
  JS.substringTo 5 (sha1Hash password).

Definition suffix (password : string) : string :=
  JS.substringFrom 5 (sha1Hash password).

(** The [for (const line of lines)] loop inside the [try]. [None] is a
    [TypeError] thrown by [count.trim()] when the line that matches has no
    [":"], so that [count] is [undefined]. *)
Fixpoint scanLines (suffix : string) (lines : list string) : option bool :=
  match lines with
  | [] => Some false
  | line :: rest =>
      match JS.split ":" line with
      | [] => None
      | hashSuffix :: fields =>
          if String.eqb (JS.trim hashSuffix) suffix then
            match fields with
            | [] => None
            | count :: _ =>
                Some match JS.parseInt (JS.trim count) with
                     | Some n => 0 <? n
                     | None => false
                     end
            end
          else scanLines suffix rest
      end
  end.

Definition isPasswordPwned (api : range_api) (password : string) : bool :=
  match api (prefix password) with
  | Throws => false
  | Data data =>
      match scanLines (suffix password) (JS.split "010" data) with
      | Some compromised => compromised
      | None => false
      end
  end.

(** ** Collaborators *)

(** Library code and configuration the handlers call. *)
Record Env : Type := {
  (** [String.prototype.toLowerCase] *)
  toLowerCase : string -> string;
  (** [a.correo_electronico = ?] under the column's collation *)
  sql_eq : string -> string -> bool;
  (** [p.fecha_nacimiento = ?], the request's text against the stored date *)
  sql_date_eq : string -> string -> bool;
  (** [jwt.sign({ code }, process.env.JWT_SECRET, { noTimestamp: true })] *)
  jwt_sign : string -> string;
  (** [bcrypt.hash(data, salt)] *)
  bcrypt_hash : string -> string -> string;
  (** [bcrypt.compare(data, hash)] on two strings *)
  bcrypt_compare : string -> string -> bool;
  (** express-validator's [isEmail], [isISO8601], [isInt] *)
  isEmail : string -> bool;
  isISO8601 : string -> bool;
  isInt : string -> bool;
  (** [process.env.EMAIL_USER] and the two templates read at start-up *)
  EMAIL_USER : string;
  htmlTemplate : string;
  recoveryHtmlTemplate : string
}.

(** What the OTP design relies on: a token verifies against its own hash,
    and the hash of one code's token never verifies another code's token. *)
Record EnvLaws (E : Env) : Prop := {
  compare_own_hash :
    forall token salt,
      bcrypt_compare E token (bcrypt_hash E token salt) = true;
  compare_other_code :
    forall code code' salt,
      bcrypt_compare E (jwt_sign E code) (bcrypt_hash E (jwt_sign E code') salt) = true ->
      code = code'
}.

(** What the outside world answers during one request. *)
Record io : Type := {
  Date_now : Z;            (** [Date.now()], [new Date()] *)
  NOW : Z;                 (** [NOW()] as the database evaluates it *)
  Math_random : Q;         (** [Math.random()] *)
  genSalt : string;        (** [bcrypt.genSalt(10)] *)
  pwnedpasswords : range_api;
  sendMail : bool          (** [false]: [transporter.sendMail] rejects *)
}.

(** ** Tables *)

Module Auth.
Record row : Type := {
  id : Z;
  correo_electronico : string;
  contrasena : option string;
  registro_completado : Z;
  verificado : Z;
  estatus : string;
  codigo_verificacion : option string;
  fecha_codigo_verificacion : option Z;
  fecha_actualizacion : option Z
}.
End Auth.

Module Perfil.
Record row : Type := {
  id : Z;
  fecha_nacimiento : string;
  nombre : string;
  apellido_paterno : string;
  apellido_materno : string;
  genero : string;
  curp : string;
  telefono : string;
  universidad_id : string;
  puesto_id : string;
  programa_id : option string;
  nivel_id : string;
  numero_trabajador : string;
  rol_sindicato_id : Z;
  antiguedad : option string
}.
End Perfil.

Record mail : Type := {
  from : string;
  to : string;
  subject : string;
  html : string
}.

Record state : Type := {
  autenticacion_usuarios : list Auth.row;
  perfil_usuarios : list Perfil.row;
  outbox : list mail
}.

(** [UPDATE t SET ... WHERE id = ?] *)
Definition update_where {row : Type} (where_ : row -> bool) (set : row -> row)
    (table : list row) : list row :=
  map (fun r => if where_ r then set r else r) table.

Definition with_auth (st : state) (rows : list Auth.row) : state :=
  {| autenticacion_usuarios := rows;
     perfil_usuarios := perfil_usuarios st;
     outbox := outbox st |}.

Definition with_perfil (st : state) (rows : list Perfil.row) : state :=
  {| autenticacion_usuarios := autenticacion_usuarios st;
     perfil_usuarios := rows;
     outbox := outbox st |}.

Definition deliver (st : state) (m : mail) : state :=
  {| autenticacion_usuarios := autenticacion_usuarios st;
     perfil_usuarios := perfil_usuarios st;
     outbox := (outbox st ++ [m])%list |}.

(** ** Responses and validation *)

Inductive json : Type :=
| Error (error : string)
| Message (message : string)
| Errors (errors : list string).

Record response : Type := { status : Z; body : json }.

Definition res (status : Z) (body : json) : response :=
  {| status := status; body := body |}.

(** One validation chain [body(field).<validator>().withMessage(msg)]. *)
Definition chain (valid : bool) (msg : string) : list string :=
  if valid then [] else [msg].

(** [isLength({ min, max })] and [isLength({ min })]. *)
Definition isLength (min : nat) (max : option nat) (s : string) : bool :=
  (min <=? String.length s)%nat
  && match max with
     | Some m => (String.length s <=? m)%nat
     | None => true
     end.

Definition notEmpty (s : string) : bool :=
  negb (String.eqb s EmptyString).

Definition isIn (values : list string) (s : string) : bool :=
  existsb (String.eqb s) values.

(** [optional({ checkFalsy: true, nullable: true })]: a falsy value skips
    the chain. *)
Definition optional (validator : string -> bool) (s : string) : bool :=
  String.eqb s EmptyString || validator s.

(** [value || null] *)
Definition or_null (s : string) : option string :=
  if String.eqb s EmptyString then None else Some s.

(** [new Date(v).getTime()] of a nullable [DATETIME]: [new Date(null)] is
    the epoch. *)
Definition getTime (v : option Z) : Z :=
  match v with
  | Some t => t
  | None => 0
  end.

(** [Math.floor(100000 + Math.random() * 900000).toString()] *)
Definition otpCode (x : io) : string :=
  JS.toString (Qfloor (inject_Z 100000 + Math_random x * inject_Z 900000)).

(** [UPDATE autenticacion_usuarios SET codigo_verificacion = ?,
    fecha_codigo_verificacion = NOW() WHERE id = ?], the statement both
    [/enviarCodigo] handlers run. *)
Definition set_codigo (hashedToken : string) (now : Z) (a : Auth.row) : Auth.row :=
  {| Auth.id := Auth.id a;
     Auth.correo_electronico := Auth.correo_electronico a;
     Auth.contrasena := Auth.contrasena a;
     Auth.registro_completado := Auth.registro_completado a;
     Auth.verificado := Auth.verificado a;
     Auth.estatus := Auth.estatus a;
     Auth.codigo_verificacion := Some hashedToken;
     Auth.fecha_codigo_verificacion := Some now;
     Auth.fecha_actualizacion := Auth.fecha_actualizacion a |}.

(** What [await axios.post(verifyURL)] gives back: a rejected promise, or
    [googleRes.data.success] read as a boolean. *)
Inductive siteverify : Type :=
| Rejects
| Answers (success : bool).

(** The sender, ["SUTUTEH" <${process.env.EMAIL_USER}>]. *)
Definition remitente (user : string) : string :=
  let quote := String (ascii_of_nat 34) EmptyString in
  quote ++ "SUTUTEH" ++ quote ++ " <" ++ user ++ ">".

(** ** consultas/registro.js *)

Module Registro.

Record enviarCodigo_body : Type := {
  ec_correo_electronico : string;
  ec_fecha_nacimiento : string
}.

Record validarCodigo_body : Type := {
  vc_correo_electronico : string;
  vc_codigo : string
}.

Record actualizarUsuario_body : Type := {
  correo_electronico : string;
  password : string;
  firstName : string;
  lastName : string;
  maternalLastName : string;
  gender : string;
  curp : string;
  phone : string;
  universityOrigin : string;
  universityPosition : string;
  educationalProgram : string;
  workerNumber : string;
  educationalLevel : string;
  antiguedad : string
}.

(** [SET verificado = 1] *)
Definition set_verificado (a : Auth.row) : Auth.row :=
  {| Auth.id := Auth.id a;
     Auth.correo_electronico := Auth.correo_electronico a;
     Auth.contrasena := Auth.contrasena a;
     Auth.registro_completado := Auth.registro_completado a;
     Auth.verificado := 1;
     Auth.estatus := Auth.estatus a;
     Auth.codigo_verificacion := Auth.codigo_verificacion a;
     Auth.fecha_codigo_verificacion := Auth.fecha_codigo_verificacion a;
     Auth.fecha_actualizacion := Auth.fecha_actualizacion a |}.

(** [SET contrasena = ?, registro_completado = 1] *)
Definition set_contrasena (hashedPassword : string) (a : Auth.row) : Auth.row :=
  {| Auth.id := Auth.id a;
     Auth.correo_electronico := Auth.correo_electronico a;
     Auth.contrasena := Some hashedPassword;
     Auth.registro_completado := 1;
     Auth.verificado := Auth.verificado a;
     Auth.estatus := Auth.estatus a;
     Auth.codigo_verificacion := Auth.codigo_verificacion a;
     Auth.fecha_codigo_verificacion := Auth.fecha_codigo_verificacion a;
     Auth.fecha_actualizacion := Auth.fecha_actualizacion a |}.

(** [UPDATE perfil_usuarios SET nombre = ?, ..., rol_sindicato_id = 1,
    antiguedad = ?]; each column holds the value bound to its placeholder. *)
Definition set_perfil (b : actualizarUsuario_body) (p : Perfil.row) : Perfil.row :=
  {| Perfil.id := Perfil.id p;
     Perfil.fecha_nacimiento := Perfil.fecha_nacimiento p;
     Perfil.nombre := firstName b;
     Perfil.apellido_paterno := lastName b;
     Perfil.apellido_materno := maternalLastName b;
     Perfil.genero := gender b;
     Perfil.curp := curp b;
     Perfil.telefono := phone b;
     Perfil.universidad_id := universityOrigin b;
     Perfil.puesto_id := universityPosition b;
     Perfil.programa_id := or_null (educationalProgram b);
     Perfil.nivel_id := educationalLevel b;
     Perfil.numero_trabajador := workerNumber b;
     Perfil.rol_sindicato_id := 1;
     Perfil.antiguedad := or_null (antiguedad b) |}.

Section Handlers.

Variable E : Env.

(** [SELECT a.id, a.registro_completado FROM autenticacion_usuarios a
    JOIN perfil_usuarios p ON a.id = p.id
    WHERE a.correo_electronico = ? AND p.fecha_nacimiento = ?] *)
Definition preregistrado (correo fecha : string) (st : state) : list (Z * Z) :=
  flat_map
    (fun a =>
       flat_map
         (fun p =>
            if (Auth.id a =? Perfil.id p)
               && sql_eq E (Auth.correo_electronico a) correo
               && sql_date_eq E (Perfil.fecha_nacimiento p) fecha
            then [(Auth.id a, Auth.registro_completado a)]
            else [])
         (perfil_usuarios st))
    (autenticacion_usuarios st).

(** [SELECT ... FROM autenticacion_usuarios WHERE correo_electronico = ?],
    first row: [const [[user]] = await pool.query(...)]. *)
Definition usuario (correo : string) (st : state) : option Auth.row :=
  find (fun a => sql_eq E (Auth.correo_electronico a) correo)
       (autenticacion_usuarios st).

Definition enviarCodigo_errors (b : enviarCodigo_body) : list string :=
  (chain (isEmail E (ec_correo_electronico b)) "Correo inválido"
   ++ chain (isISO8601 E (ec_fecha_nacimiento b)) "Fecha inválida")%list.

Definition enviarCodigo (x : io) (b : enviarCodigo_body) (st : state)
  : response * state :=
  match enviarCodigo_errors b with
  | (_ :: _)%list as errors => (res 400 (Errors errors), st)
  | [] =>
      match preregistrado (toLowerCase E (ec_correo_electronico b))
                          (ec_fecha_nacimiento b) st with
      | [] => (res 404 (Error "Usuario no encontrado"), st)
      | ((userId, registro_completado) :: _)%list =>
          if registro_completado =? 1
          then (res 400 (Error "Usuario ya registrado"), st)
          else
            let code := otpCode x in
            let token := jwt_sign E code in
            let hashedToken := bcrypt_hash E token (genSalt x) in
            let st' :=
              with_auth st
                (update_where (fun a => Auth.id a =? userId)
                   (set_codigo hashedToken (NOW x))
                   (autenticacion_usuarios st)) in
            if sendMail x
            then (res 200 (Message "Código de verificación enviado exitosamente."),
                  deliver st'
                    {| from := remitente (EMAIL_USER E);
                       to := ec_correo_electronico b;
                       subject := "Tu código de verificación (SUTUTEH)";
                       html := JS.replace "${codigo}" code (htmlTemplate E) |})
            else (res 500 (Error "Error interno al enviar el código."), st')
      end
  end.

Definition validarCodigo_errors (b : validarCodigo_body) : list string :=
  (chain (isEmail E (vc_correo_electronico b)) "Correo inválido"
   ++ chain (isLength 6 (Some 6%nat) (vc_codigo b)) "Código debe tener 6 dígitos")%list.

Definition validarCodigo (x : io) (b : validarCodigo_body) (st : state)
  : response * state :=
  match validarCodigo_errors b with
  | (_ :: _)%list as errors => (res 400 (Errors errors), st)
  | [] =>
      match usuario (toLowerCase E (vc_correo_electronico b)) st with
      | None => (res 404 (Error "Usuario no encontrado"), st)
      | Some user =>
          if Date_now x - getTime (Auth.fecha_codigo_verificacion user)
             >? 10 * 60 * 1000
          then (res 400 (Error "El código ha expirado"), st)
          else
            let candidateToken := jwt_sign E (vc_codigo b) in
            match Auth.codigo_verificacion user with
            | None =>
                (* bcrypt.compare rejects a null hash; the catch answers *)
                (res 500 (Error "Error interno al validar el código."), st)
            | Some hashToken =>
                if bcrypt_compare E candidateToken hashToken
                then (res 200 (Message "Código verificado correctamente."),
                      with_auth st
                        (update_where (fun a => Auth.id a =? Auth.id user)
                           set_verificado (autenticacion_usuarios st)))
                else (res 400 (Error "Código incorrecto"), st)
            end
      end
  end.

Definition actualizarUsuario_errors (b : actualizarUsuario_body) : list string :=
  (chain (isEmail E (correo_electronico b)) "Correo inválido"
   ++ chain (isLength 8 None (password b))
        "La contraseña debe tener al menos 8 caracteres"
   ++ chain (notEmpty (firstName b)) "Nombre requerido"
   ++ chain (notEmpty (lastName b)) "Apellido paterno requerido"
   ++ chain (notEmpty (maternalLastName b)) "Apellido materno requerido"
   ++ chain (isIn ["Masculino"; "Femenino"; "Otro"] (gender b)) "Género inválido"
   ++ chain (isLength 18 (Some 18%nat) (curp b)) "CURP debe tener 18 caracteres"
   ++ chain (isLength 10 (Some 10%nat) (phone b)) "Teléfono debe tener 10 dígitos"
   ++ chain (isInt E (universityOrigin b)) "Universidad inválida"
   ++ chain (isInt E (universityPosition b)) "Puesto inválido"
   ++ chain (optional (isInt E) (educationalProgram b)) "Programa inválido"
   ++ chain (notEmpty (workerNumber b)) "Número de trabajador requerido"
   ++ chain (isInt E (educationalLevel b)) "Nivel educativo inválido"
   ++ chain (optional (isISO8601 E) (antiguedad b))
        "Fecha de antigüedad inválida")%list.

Definition actualizarUsuario (x : io) (b : actualizarUsuario_body) (st : state)
  : response * state :=
  match actualizarUsuario_errors b with
  | (_ :: _)%list as errors => (res 400 (Errors errors), st)
  | [] =>
      match usuario (toLowerCase E (correo_electronico b)) st with
      | None => (res 404 (Error "Usuario no encontrado"), st)
      | Some user =>
          let userId := Auth.id user in
          let hashedPassword := bcrypt_hash E (password b) (genSalt x) in
          let st1 :=
            with_auth st
              (update_where (fun a => Auth.id a =? userId)
                 (set_contrasena hashedPassword) (autenticacion_usuarios st)) in
          let st2 :=
            with_perfil st1
              (update_where (fun p => Perfil.id p =? userId)
                 (set_perfil b) (perfil_usuarios st1)) in
          (res 200 (Message "Usuario actualizado y registro completado."), st2)
      end
  end.

Definition checkPasswordCompromised_errors (password : string) : list string :=
  chain (notEmpty password) "La contraseña es requerida".

(** [POST /checkPasswordCompromised]. [isPasswordPwned] never throws, so the
    handler's own [catch] is never entered. *)
Definition checkPasswordCompromised (x : io) (password : string) : response :=
  match checkPasswordCompromised_errors password with
  | (_ :: _)%list as errors => res 400 (Errors errors)
  | [] =>
      if isPasswordPwned (pwnedpasswords x) password
      then res 400 (Error "La contraseña ha sido comprometida. Por favor, elige otra.")
      else res 200 (Message "Contraseña segura.")
  end.

(** [POST /validarCaptcha]; [tokenCaptcha] is the empty string when the
    body has none. *)
Definition validarCaptcha (google : siteverify) (tokenCaptcha : string) : response :=
  if negb (notEmpty tokenCaptcha)
  then res 400 (Error "Falta el token de reCAPTCHA.")
  else match google with
       | Rejects => res 500 (Error "Error al validar reCAPTCHA.")
       | Answers false => res 400 (Error "reCAPTCHA inválido.")
       | Answers true => res 200 (Message "Captcha válido.")
       end.

End Handlers.

(** *** [POST /validarUsuario] *)

Record validarUsuario_body : Type := {
  vu_correo_electronico : string;
  vu_fecha_nacimiento : string
}.

(** The four shapes of its answers. *)
Inductive validarUsuario_json : Type :=
| Invalid (errors : list string)
    (** [{ success: false, errors }] *)
| Registered
    (** [{ exists: true, registered: true,
           message: 'Usuario ya completó el registro' }] *)
| Pending (id : Z)
    (** [{ exists: true, registered: false, id }] *)
| Missing (correo_buscado fecha_buscada : string) (usuarios_con_email : nat)
    (** [{ exists: false, message: 'Usuario no encontrado', debug }] *).

Section ValidarUsuario.

Variable E : Env.

(** [DATE(p.fecha_nacimiento) = ?] and
    [DATE_FORMAT(p.fecha_nacimiento, '%Y-%m-%d') = ?], the stored date
    against the request's text. *)
Variable sql_DATE_eq : string -> string -> bool.
Variable sql_DATE_FORMAT_eq : string -> string -> bool.

(** [SELECT a.id, a.registro_completado, ...
    FROM autenticacion_usuarios AS a JOIN perfil_usuarios AS p ON a.id = p.id
    WHERE a.correo_electronico = ? AND <fecha>] *)
Definition unidos (correo : string) (fecha : Perfil.row -> bool) (st : state)
  : list (Z * Z) :=
  flat_map
    (fun a =>
       flat_map
         (fun p =>
            if (Auth.id a =? Perfil.id p)
               && sql_eq E (Auth.correo_electronico a) correo
               && fecha p
            then [(Auth.id a, Auth.registro_completado a)]
            else [])
         (perfil_usuarios st))
    (autenticacion_usuarios st).

(** The date condition of the flexible search. *)
Definition flexible (fecha : string) (p : Perfil.row) : bool :=
  sql_DATE_eq (Perfil.fecha_nacimiento p) fecha
  || sql_date_eq E (Perfil.fecha_nacimiento p) fecha
  || sql_DATE_FORMAT_eq (Perfil.fecha_nacimiento p) fecha.

(** The answer for the first row found. *)
Definition answer (row : Z * Z) : Z * validarUsuario_json :=
  let '(id, registro_completado) := row in
  if registro_completado =? 1 then (400, Registered) else (200, Pending id).

Definition validarUsuario (b : validarUsuario_body) (st : state)
  : Z * validarUsuario_json :=
  (* .trim().toLowerCase() rewrite the field before .isEmail() reads it *)
  let correo_electronico := toLowerCase E (JS.trim (vu_correo_electronico b)) in
  let fecha_nacimiento := vu_fecha_nacimiento b in
  match (chain (isEmail E correo_electronico) "Correo electrónico inválido"
         ++ chain (isISO8601 E fecha_nacimiento) "Fecha de nacimiento inválida")%list with
  | (_ :: _)%list as errors => (400, Invalid errors)
  | [] =>
      let exactRows := unidos correo_electronico (fun _ => true) st in
      let rows :=
        unidos correo_electronico
          (fun p => sql_DATE_eq (Perfil.fecha_nacimiento p) fecha_nacimiento) st in
      let original :=
        match rows with
        | [] => (404, Missing correo_electronico fecha_nacimiento
                        (List.length exactRows))
        | (row :: _)%list => answer row
        end in
      match rows, exactRows with
      | [], (_ :: _)%list =>
          match unidos correo_electronico (flexible fecha_nacimiento) st with
          | (row :: _)%list => answer row
          | [] => original
          end
      | _, _ => original
      end
  end.

End ValidarUsuario.

End Registro.

(** ** consultas/registro.js, the version that sends with Resend *)

Module RegistroResend.

(** What [await resend.emails.send(...)] gives back: a rejected promise,
    [{ error }] or [{ data }]. *)
Inductive resend_result : Type :=
| Thrown
| Failed
| Sent.

Section Handlers.

Variable E : Env.

Definition enviarCodigo (x : io) (resend : resend_result)
    (b : Registro.enviarCodigo_body) (st : state) : response * state :=
  match Registro.enviarCodigo_errors E b with
  | (_ :: _)%list as errors => (res 400 (Errors errors), st)
  | [] =>
      match Registro.preregistrado E
              (toLowerCase E (Registro.ec_correo_electronico b))
              (Registro.ec_fecha_nacimiento b) st with
      | [] => (res 404 (Error "Usuario no encontrado"), st)
      | ((userId, registro_completado) :: _)%list =>
          if registro_completado =? 1
          then (res 400 (Error "Usuario ya registrado"), st)
          else
            let code := otpCode x in
            let token := jwt_sign E code in
            let hashedToken := bcrypt_hash E token (genSalt x) in
            let st' :=
              with_auth st
                (update_where (fun a => Auth.id a =? userId)
                   (set_codigo hashedToken (NOW x))
                   (autenticacion_usuarios st)) in
            match resend with
            | Sent =>
                (res 200 (Message "Código de verificación enviado exitosamente."),
                 deliver st'
                   {| from := "SUTUTEH <sistema@sututeh.com>";
                      to := Registro.ec_correo_electronico b;
                      subject := "Tu código de verificación - SUTUTEH";
                      html := JS.replace "${codigo}" code (htmlTemplate E) |})
            | Failed =>
                (res 500 (Error "Error al enviar el código de verificación."), st')
            | Thrown =>
                (res 500 (Error "Error interno al enviar el código."), st')
            end
      end
  end.

End Handlers.

End RegistroResend.

(** ** consultas/recuperarContrasena.js *)

Module Recuperar.

Record verificarCorreoCaptcha_body : Type := {
  cc_email : string;
  cc_tokenCaptcha : string
}.

Record enviarCodigo_body : Type := {
  ec_email : string
}.

Record verificarCodigo_body : Type := {
  vc_email : string;
  vc_codigo : string
}.

Record actualizarContrasena_body : Type := {
  email : string;
  password : string;
  confirmPassword : string
}.

(** [SET contrasena = ?, codigo_verificacion = NULL,
    fecha_codigo_verificacion = NULL, fecha_actualizacion = NOW()] *)
Definition set_contrasena (hashedPassword : string) (now : Z) (a : Auth.row)
  : Auth.row :=
  {| Auth.id := Auth.id a;
     Auth.correo_electronico := Auth.correo_electronico a;
     Auth.contrasena := Some hashedPassword;
     Auth.registro_completado := Auth.registro_completado a;
     Auth.verificado := Auth.verificado a;
     Auth.estatus := Auth.estatus a;
     Auth.codigo_verificacion := None;
     Auth.fecha_codigo_verificacion := None;
     Auth.fecha_actualizacion := Some now |}.

(** [(now - codeDate) / (1000 * 60)]. The difference of two dates is a whole
    number of milliseconds; the quotient is kept exact. *)
Definition diffMinutes (now codeDate : Z) : Q :=
  (inject_Z (now - codeDate) / inject_Z (1000 * 60))%Q.

(** [a > b] *)
Definition Qgtb (a b : Q) : bool := negb (Qle_bool a b).

(** The character classes of [passwordRegex]. *)
Definition isLower (c : ascii) : bool :=
  let n := nat_of_ascii c in ((97 <=? n) && (n <=? 122))%nat.

Definition isUpper (c : ascii) : bool :=
  let n := nat_of_ascii c in ((65 <=? n) && (n <=? 90))%nat.

(** [[@$!%*?&]] *)
Definition isSpecial (c : ascii) : bool :=
  existsb (Ascii.eqb c) (list_ascii_of_string "@$!%*?&").

(** [[A-Za-z\d@$!%*?&]] *)
Definition isAllowed (c : ascii) : bool :=
  isUpper c || isLower c || JS.isDigit c || isSpecial c.

(** [/^(?=.*[a-z])(?=.*[A-Z])(?=.*\d)(?=.*[@$!%*?&])[A-Za-z\d@$!%*?&]{8,}$/
    .test(password)]: four lookaheads from the start, then eight or more
    characters of the class up to the end. *)
Definition passwordRegex (password : string) : bool :=
  let chars := list_ascii_of_string password in
  existsb isLower chars
  && existsb isUpper chars
  && existsb JS.isDigit chars
  && existsb isSpecial chars
  && forallb isAllowed chars
  && (8 <=? List.length chars)%nat.

Section Handlers.

Variable E : Env.

(** [SELECT a.id, ... FROM autenticacion_usuarios a
    WHERE a.correo_electronico = ?] *)
Definition usuarios (correo : string) (st : state) : list Auth.row :=
  filter (fun a => sql_eq E (Auth.correo_electronico a) correo)
         (autenticacion_usuarios st).

Definition enviarCodigo_errors (b : enviarCodigo_body) : list string :=
  chain (isEmail E (ec_email b)) "Correo electrónico inválido".

Definition enviarCodigo (x : io) (b : enviarCodigo_body) (st : state)
  : response * state :=
  match enviarCodigo_errors b with
  | (_ :: _)%list as errors => (res 400 (Errors errors), st)
  | [] =>
      let invalid :=
        (res 404 (Error "Usuario no válido para recuperación de contraseña."), st) in
      match usuarios (toLowerCase E (ec_email b)) st with
      | [] => invalid
      | (user :: _)%list =>
          if negb (Auth.registro_completado user =? 1)
             || negb (String.eqb (Auth.estatus user) "Activo")
          then invalid
          else
            let userId := Auth.id user in
            let code := otpCode x in
            let token := jwt_sign E code in
            let hashedToken := bcrypt_hash E token (genSalt x) in
            let st' :=
              with_auth st
                (update_where (fun a => Auth.id a =? userId)
                   (set_codigo hashedToken (NOW x))
                   (autenticacion_usuarios st)) in
            if sendMail x
            then (res 200
                    (Message "Código de recuperación enviado exitosamente a su correo electrónico."),
                  deliver st'
                    {| from := remitente (EMAIL_USER E);
                       to := ec_email b;
                       subject := "Código de Recuperación de Contraseña - SUTUTEH";
                       html := JS.replace "${codigo}" code (recoveryHtmlTemplate E) |})
            else (res 500 (Error "Error interno al enviar el código de recuperación."),
                  st')
      end
  end.

Definition verificarCodigo_errors (b : verificarCodigo_body) : list string :=
  (chain (isEmail E (vc_email b)) "Correo electrónico inválido"
   ++ chain (isLength 6 (Some 6%nat) (vc_codigo b))
        "El código debe tener 6 dígitos")%list.

Definition verificarCodigo (x : io) (b : verificarCodigo_body) (st : state)
  : response * state :=
  match verificarCodigo_errors b with
  | (_ :: _)%list as errors => (res 400 (Errors errors), st)
  | [] =>
      match usuarios (toLowerCase E (vc_email b)) st with
      | [] => (res 404 (Error "Usuario no encontrado."), st)
      | (user :: _)%list =>
          match Auth.codigo_verificacion user, Auth.fecha_codigo_verificacion user with
          | Some (String _ _ as codigo_verificacion), Some codeDate =>
              if Qgtb (diffMinutes (Date_now x) codeDate) (inject_Z 10)
              then (res 400 (Error "El código ha expirado. Solicite uno nuevo."), st)
              else
                let candidateToken := jwt_sign E (vc_codigo b) in
                if bcrypt_compare E candidateToken codigo_verificacion
                then (res 200
                        (Message "Código verificado correctamente. Puede proceder a cambiar su contraseña."),
                      st)
                else (res 400
                        (Error "Código incorrecto. Verifique e intente nuevamente."),
                      st)
          | _, _ =>
              (res 400
                 (Error "No se ha solicitado recuperación de contraseña para este usuario."),
               st)
          end
      end
  end.

Definition actualizarContrasena_errors (b : actualizarContrasena_body)
  : list string :=
  (chain (isEmail E (email b)) "Correo electrónico inválido"
   ++ chain (isLength 8 None (password b))
        "La contraseña debe tener al menos 8 caracteres"
   ++ chain (notEmpty (confirmPassword b))
        "Confirmación de contraseña requerida")%list.

Definition actualizarContrasena (x : io) (b : actualizarContrasena_body)
    (st : state) : response * state :=
  match actualizarContrasena_errors b with
  | (_ :: _)%list as errors => (res 400 (Errors errors), st)
  | [] =>
      if negb (String.eqb (password b) (confirmPassword b))
      then (res 400 (Error "Las contraseñas no coinciden."), st)
      else if negb (passwordRegex (password b))
      then (res 400
              (Error "La contraseña debe tener al menos 8 caracteres, incluir mayúsculas, minúsculas, números y caracteres especiales."),
            st)
      else if isPasswordPwned (pwnedpasswords x) (password b)
      then (res 400
              (Error "Esta contraseña ha sido comprometida en filtraciones de datos. Por favor, elija una contraseña diferente."),
            st)
      else
        match usuarios (toLowerCase E (email b)) st with
        | [] => (res 404 (Error "Usuario no encontrado."), st)
        | (user :: _)%list =>
            match Auth.codigo_verificacion user,
                  Auth.fecha_codigo_verificacion user with
            | Some (String _ _), Some codeDate =>
                if Qgtb (diffMinutes (Date_now x) codeDate) (inject_Z 15)
                then (res 400
                        (Error "El proceso de recuperación ha expirado. Inicie nuevamente."),
                      st)
                else
                  let hashedPassword := bcrypt_hash E (password b) (genSalt x) in
                  (res 200
                     (Message "Contraseña actualizada exitosamente. Ya puede iniciar sesión con su nueva contraseña."),
                   with_auth st
                     (update_where (fun a => Auth.id a =? Auth.id user)
                        (set_contrasena hashedPassword (NOW x))
                        (autenticacion_usuarios st)))
            | _, _ =>
                (res 400
                   (Error "Debe verificar el código de recuperación antes de cambiar la contraseña."),
                 st)
            end
        end
  end.

Definition verificarCorreoCaptcha_errors (b : verificarCorreoCaptcha_body)
  : list string :=
  (chain (isEmail E (cc_email b)) "Correo electrónico inválido"
   ++ chain (notEmpty (cc_tokenCaptcha b)) "Token de reCAPTCHA requerido")%list.

(** [POST /verificarCorreoCaptcha]; it runs one [SELECT] and no
    [UPDATE]. *)
Definition verificarCorreoCaptcha (google : siteverify)
    (b : verificarCorreoCaptcha_body) (st : state) : response :=
  match verificarCorreoCaptcha_errors b with
  | (_ :: _)%list as errors => res 400 (Errors errors)
  | [] =>
      match google with
      | Rejects => res 500 (Error "Error interno del servidor.")
      | Answers false =>
          res 400 (Error "reCAPTCHA inválido. Por favor, inténtelo de nuevo.")
      | Answers true =>
          match usuarios (toLowerCase E (cc_email b)) st with
          | [] =>
              res 404
                (Error "No existe una cuenta asociada a este correo electrónico.")
          | (user :: _)%list =>
              if negb (Auth.registro_completado user =? 1)
              then res 400
                     (Error "Esta cuenta no ha completado el proceso de registro.")
              else if negb (String.eqb (Auth.estatus user) "Activo")
              then res 400
                     (Error "Esta cuenta no está activa. Contacte al administrador.")
              else res 200 (Message "Correo verificado correctamente.")
          end
      end
  end.

End Handlers.

End Recuperar.

(** ** consultas/preguntas.js: answering a question *)

Module Preguntas.

Module Mensaje.
Record row : Type := {
  id : Z;
  id_usuario : option Z;
  nombre : string;
  apellido_paterno : string;
  apellido_materno : string;
  correo_electronico : string;
  telefono : option string;
  mensaje : string;
  estado : string;
  creado_en : Z
}.
End Mensaje.

Module Respuesta.
Record row : Type := {
  mensaje_id : Z;
  respuesta : string;
  respondido_por : option Z;
  respondido_en : Z
}.
End Respuesta.

Record state : Type := {
  mensajes_contacto : list Mensaje.row;
  mensajes_contacto_respuestas : list Respuesta.row;
  outbox : list mail
}.

(** The bodies the handlers answer with. *)
Inductive json : Type :=
| Errors (errors : list string)
| Error (error : string)
| Message (message : string)
| Saved (message : string) (emailSent : bool)
    (** [{ message, emailSent }] *)
| Warned (message : string)
    (** [{ message, emailSent: false, warning }] *).

(** One element of the array [GET /] answers with. *)
Record pregunta : Type := {
  p_id : Z;
  registrado : bool;
  p_nombre : string;
  apellidoP : string;
  apellidoM : string;
  p_telefono : option string;
  correo : string;
  date : string;
  question : string;
  p_estado : string;
  responses : list string
}.

(** Truthiness of a nullable number: [null] and [0] are falsy. *)
Definition truthy (v : option Z) : bool :=
  match v with
  | Some n => negb (n =? 0)
  | None => false
  end.

(** [value || fallback] on a string. *)
Definition or_else (value fallback : string) : string :=
  if String.eqb value EmptyString then fallback else value.

(** [SET estado = 'respondido'] *)
Definition set_respondido (m : Mensaje.row) : Mensaje.row :=
  {| Mensaje.id := Mensaje.id m;
     Mensaje.id_usuario := Mensaje.id_usuario m;
     Mensaje.nombre := Mensaje.nombre m;
     Mensaje.apellido_paterno := Mensaje.apellido_paterno m;
     Mensaje.apellido_materno := Mensaje.apellido_materno m;
     Mensaje.correo_electronico := Mensaje.correo_electronico m;
     Mensaje.telefono := Mensaje.telefono m;
     Mensaje.mensaje := Mensaje.mensaje m;
     Mensaje.estado := "respondido";
     Mensaje.creado_en := Mensaje.creado_en m |}.

(** [INSERT INTO mensajes_contacto_respuestas (mensaje_id, respuesta,
    respondido_por) VALUES (?, ?, ?)], then
    [UPDATE mensajes_contacto SET estado = 'respondido' WHERE id = ?]. The
    new row comes last and takes the database's clock. *)
Definition guardar (x : io) (mensajeId : Z) (respuesta : string)
    (respondido_por : option Z) (st : state) : state :=
  {| mensajes_contacto :=
       update_where (fun m => Mensaje.id m =? mensajeId) set_respondido
         (mensajes_contacto st);
     mensajes_contacto_respuestas :=
       (mensajes_contacto_respuestas st
        ++ [ {| Respuesta.mensaje_id := mensajeId;
                Respuesta.respuesta := respuesta;
                Respuesta.respondido_por := respondido_por;
                Respuesta.respondido_en := NOW x |} ])%list;
     outbox := outbox st |}.

Definition enviar (st : state) (m : mail) : state :=
  {| mensajes_contacto := mensajes_contacto st;
     mensajes_contacto_respuestas := mensajes_contacto_respuestas st;
     outbox := (outbox st ++ [m])%list |}.

(** [SELECT ... FROM mensajes_contacto WHERE id = ?], first row. *)
Definition buscar (mensajeId : Z) (st : state) : option Mensaje.row :=
  find (fun m => Mensaje.id m =? mensajeId) (mensajes_contacto st).

Section Handlers.

(** The template read at start-up, [s.replace(/{{name}}/g, by)],
    [DATE_FORMAT(creado_en, '%Y-%m-%d')] and the two [ORDER BY]. *)
Variable htmlTemplate : string.
Variable replaceAll : string -> string -> string -> string.
Variable DATE_FORMAT : Z -> string.
Variable order_by_creado_en_desc : list Mensaje.row -> list Mensaje.row.
Variable order_by_respondido_en : list Respuesta.row -> list Respuesta.row.

(** [POST /:id/responder] *)
Definition responder (x : io) (resend : RegistroResend.resend_result)
    (mensajeId : Z) (respuesta : string) (st : state) : Z * json * state :=
  match chain (notEmpty respuesta) "La respuesta es requerida" with
  | (_ :: _)%list as errors => (400, Errors errors, st)
  | [] =>
      match buscar mensajeId st with
      | None => (404, Error "Pregunta no encontrada", st)
      | Some mensaje =>
          let respondido_por :=
            if truthy (Mensaje.id_usuario mensaje)
            then Mensaje.id_usuario mensaje else None in
          let st' := guardar x mensajeId (JS.trim respuesta) respondido_por st in
          if negb (truthy (Mensaje.id_usuario mensaje))
          then
            let htmlEmail :=
              replaceAll "respuesta" respuesta
                (replaceAll "pregunta" (Mensaje.mensaje mensaje)
                   (replaceAll "nombre" (or_else (Mensaje.nombre mensaje) "Usuario")
                      htmlTemplate)) in
            match resend with
            | RegistroResend.Sent =>
                (200, Saved "Respuesta guardada y enviada por correo." true,
                 enviar st'
                   {| from := "SUTUTEH <sistema@sututeh.com>";
                      to := Mensaje.correo_electronico mensaje;
                      subject := "Respuesta a tu consulta - SUTUTEH";
                      html := htmlEmail |})
            | _ =>
                (200,
                 Warned "Respuesta guardada, pero hubo un error al enviar el correo.",
                 st')
            end
          else (200, Saved "Respuesta guardada correctamente." false, st')
      end
  end.


(** [POST /:id/responder-admin] *)
Definition responder_admin (x : io) (mensajeId : Z) (respuesta : string)
    (st : state) : Z * json * state :=
  match chain (notEmpty respuesta) "La respuesta es requerida" with
  | (_ :: _)%list as errors => (400, Errors errors, st)
  | [] =>
      match buscar mensajeId st with
      | None => (404, Error "Pregunta no encontrada.", st)
      | Some _ =>
          (200, Message "Respuesta guardada correctamente (admin).",
           guardar x mensajeId (JS.trim respuesta) None st)
      end
  end.

(** [GET /]: every question, most recent first, each with its answers in
    the order they were given. *)
Definition consultar (st : state) : list pregunta :=
  map
    (fun m =>
       let resps :=
         order_by_respondido_en
           (filter (fun r => Respuesta.mensaje_id r =? Mensaje.id m)
              (mensajes_contacto_respuestas st)) in
       {| p_id := Mensaje.id m;
          registrado := match Mensaje.id_usuario m with
                        | Some _ => true
                        | None => false
                        end;
          p_nombre := Mensaje.nombre m;
          apellidoP := Mensaje.apellido_paterno m;
          apellidoM := Mensaje.apellido_materno m;
          p_telefono := Mensaje.telefono m;
          correo := Mensaje.correo_electronico m;
          date := DATE_FORMAT (Mensaje.creado_en m);
          question := Mensaje.mensaje m;
          p_estado := Mensaje.estado m;
          responses := map Respuesta.respuesta resps |})
    (order_by_creado_en_desc (mensajes_contacto st)).

End Handlers.

End Preguntas.

(** ** An instance of the collaborators

    The handlers run inside Rocq under this instance: the token carries the
    code behind a fixed header and the hash keeps the token in clear, so
    that [EnvLaws] holds by computation. *)

Module Plain.

Definition lowerChar (c : ascii) : ascii :=
  let n := nat_of_ascii c in
  if ((65 <=? n) && (n <=? 90))%nat then ascii_of_nat (n + 32) else c.

Fixpoint lower (s : string) : string :=
  match s with
  | String c rest => String (lowerChar c) (lower rest)
  | EmptyString => EmptyString
  end.

Definition env : Env :=
  {| toLowerCase := lower;
     sql_eq := String.eqb;
     sql_date_eq := String.eqb;
     jwt_sign := fun code => "jwt." ++ code;
     bcrypt_hash := fun data _ => "$2b$10$" ++ data;
     bcrypt_compare := fun data hash => String.eqb ("$2b$10$" ++ data) hash;
     isEmail := fun s => existsb (Ascii.eqb "@") (list_ascii_of_string s);
     isISO8601 := fun s => (String.length s =? 10)%nat;
     isInt := fun s => notEmpty s && forallb JS.isDigit (list_ascii_of_string s);
     EMAIL_USER := "sistema@sututeh.com";
     htmlTemplate := "<p>${codigo}</p>";
     recoveryHtmlTemplate := "<b>${codigo}</b>" |}.

End Plain.

(** * Vocabulary of the properties *)

(** The two fields the loop reads of a response line. *)
Definition hashSuffix_of (line : string) : string :=
  match JS.split ":" line with
  | (hashSuffix :: _)%list => JS.trim hashSuffix
  | [] => EmptyString
  end.

Definition count_of (line : string) : option Z :=
  match JS.split ":" line with
  | (_ :: count :: _)%list => JS.parseInt (JS.trim count)
  | _ => None
  end.

(** A line with a count strictly greater than 0. *)
Definition breached (line : string) : Prop :=
  exists n, count_of line = Some n /\ 0 < n.

(** [line] is the first of [lines] whose suffix field is [sfx]. *)
Definition first_match (sfx : string) (lines : list string) (line : string) : Prop :=
  exists before after,
    lines = (before ++ line :: after)%list
    /\ Forall (fun l => hashSuffix_of l <> sfx) before
    /\ hashSuffix_of line = sfx.

(** No stored identity has both the address and the birth date. *)
Definition no_match (E : Env) (correo fecha : string) (st : state) : Prop :=
  forall a p,
    In a (autenticacion_usuarios st) ->
    In p (perfil_usuarios st) ->
    Auth.id a = Perfil.id p ->
    sql_eq E (Auth.correo_electronico a) correo = true ->
    sql_date_eq E (Perfil.fecha_nacimiento p) fecha = false.

Definition expirado : response :=
  res 400 (Error "El código ha expirado").

Definition expirado_recuperacion : response :=
  res 400 (Error "El código ha expirado. Solicite uno nuevo.").

(** At most one row of [autenticacion_usuarios] has the address. *)
Definition unique_email (E : Env) (correo : string) (st : state) : Prop :=
  (List.length
     (filter (fun a => sql_eq E (Auth.correo_electronico a) correo)
             (autenticacion_usuarios st)) <= 1)%nat.

(** What [passwordRegex] asks of a password. *)
Definition strong (password : string) : Prop :=
  let chars := list_ascii_of_string password in
  (exists c, In c chars /\ Recuperar.isUpper c = true)
  /\ (exists c, In c chars /\ Recuperar.isLower c = true)
  /\ (exists c, In c chars /\ JS.isDigit c = true)
  /\ (exists c, In c chars /\ Recuperar.isSpecial c = true)
  /\ (8 <= String.length password)%nat.



(** [pieces.join(sep)] for a one-character separator. *)
Fixpoint join (sep : ascii) (pieces : list string) : string :=
  match pieces with
  | [] => EmptyString
  | [piece] => piece
  | (piece :: rest)%list => piece ++ String sep (join sep rest)
  end.

Definition LF : ascii := "010".
Definition CR : ascii := "013".

(** The body with every line feed turned into carriage return, line feed. *)
Fixpoint crlf (data : string) : string :=
  match data with
  | EmptyString => EmptyString
  | String c rest =>
      if Ascii.eqb c LF then String CR (String LF (crlf rest))
      else String c (crlf rest)
  end.

(** Equal, or equal up to one trailing carriage return. *)
Definition up_to_CR (s' s : string) : Prop :=
  s' = s \/ s' = s ++ String CR EmptyString.

(** A digit or a letter from A to F. *)
Definition isUpperHex (c : ascii) : bool :=
  let n := nat_of_ascii c in
  JS.isDigit c || ((65 <=? n) && (n <=? 70))%nat.

(** [s] occurs in [t]. *)
Definition occurs (s t : string) : Prop :=
  exists before after, t = before ++ s ++ after.

(** The columns of an identity other than its challenge. *)
Definition credenciales (a : Auth.row)
  : Z * string * option string * Z * Z * string * option Z :=
  (Auth.id a, Auth.correo_electronico a, Auth.contrasena a,
   Auth.registro_completado a, Auth.verificado a, Auth.estatus a,
   Auth.fecha_actualizacion a).


(** The columns of an identity that completing the registration does not
    set. *)
Definition sin_contrasena (a : Auth.row)
  : Z * string * Z * string * option string * option Z * option Z :=
  (Auth.id a, Auth.correo_electronico a, Auth.verificado a, Auth.estatus a,
   Auth.codigo_verificacion a, Auth.fecha_codigo_verificacion a,
   Auth.fecha_actualizacion a).

Definition ya_registrado : response :=
  res 400 (Error "Usuario ya registrado").

Definition verificado_ok : response :=
  res 200 (Message "Código verificado correctamente.").

(** What a "send code" handler may leave behind: every column but the
    challenge as it was, the profiles as they were, at most one more mail. *)
Definition challenge_only (st st' : state) : Prop :=
  map credenciales (autenticacion_usuarios st')
  = map credenciales (autenticacion_usuarios st)
  /\ perfil_usuarios st' = perfil_usuarios st
  /\ (outbox st' = outbox st \/ exists m, outbox st' = (outbox st ++ [m])%list).

(** The columns of a profile that completing the registration does not
    set. *)
Definition perfil_fijo (p : Perfil.row) : Z * string :=
  (Perfil.id p, Perfil.fecha_nacimiento p).

Definition recuperacion_ok : response :=
  res 200
    (Message "Código verificado correctamente. Puede proceder a cambiar su contraseña.").

Definition recuperacion_incorrecto : response :=
  res 400 (Error "Código incorrecto. Verifique e intente nuevamente.").

Definition correo_verificado : response :=
  res 200 (Message "Correo verificado correctamente.").

(** No stored identity has the address and a birth date that [fecha]
    accepts. *)
Definition no_match_by (E : Env) (correo : string) (fecha : Perfil.row -> bool)
    (st : state) : Prop :=
  forall a p,
    In a (autenticacion_usuarios st) ->
    In p (perfil_usuarios st) ->
    Auth.id a = Perfil.id p ->
    sql_eq E (Auth.correo_electronico a) correo = true ->
    fecha p = false.



(** An [ORDER BY] returns the rows it was given. *)
Definition keeps_rows {row : Type} (order : list row -> list row) : Prop :=
  forall rows r, In r (order rows) <-> In r rows.

(** White space only. *)
Definition blank (s : string) : bool :=
  forallb JS.isWhiteSpace (list_ascii_of_string s).

(** ** A run of both workflows *)

Module Scenario.

(** One pre-registered member, not verified, no challenge. *)
Definition member : Auth.row :=
  {| Auth.id := 1;
     Auth.correo_electronico := "a@b.com";
     Auth.contrasena := None;
     Auth.registro_completado := 0;
     Auth.verificado := 0;
     Auth.estatus := "Activo";
     Auth.codigo_verificacion := None;
     Auth.fecha_codigo_verificacion := None;
     Auth.fecha_actualizacion := None |}.

Definition profile : Perfil.row :=
  {| Perfil.id := 1;
     Perfil.fecha_nacimiento := "2000-01-01";
     Perfil.nombre := EmptyString;
     Perfil.apellido_paterno := EmptyString;
     Perfil.apellido_materno := EmptyString;
     Perfil.genero := EmptyString;
     Perfil.curp := EmptyString;
     Perfil.telefono := EmptyString;
     Perfil.universidad_id := EmptyString;
     Perfil.puesto_id := EmptyString;
     Perfil.programa_id := None;
     Perfil.nivel_id := EmptyString;
     Perfil.numero_trabajador := EmptyString;
     Perfil.rol_sindicato_id := 0;
     Perfil.antiguedad := None |}.

Definition st0 : state :=
  {| autenticacion_usuarios := [member];
     perfil_usuarios := [profile];
     outbox := [] |}.

(** The world at time [t], with [draw] for [Math.random()]; the range API
    lists nothing. *)
Definition world (t : Z) (draw : Q) : io :=
  {| Date_now := t;
     NOW := t;
     Math_random := draw;
     genSalt := "$2b$10$abcdefghijklmnopqrstuv";
     pwnedpasswords := fun _ => Data EmptyString;
     sendMail := true |}.

Definition t0 : Z := 1700000000000.

Definition minutes (n : Z) : Z := n * 60 * 1000.

Definition send : Registro.enviarCodigo_body :=
  {| Registro.ec_correo_electronico := "a@b.com";
     Registro.ec_fecha_nacimiento := "2000-01-01" |}.

Definition send_wrong_date : Registro.enviarCodigo_body :=
  {| Registro.ec_correo_electronico := "a@b.com";
     Registro.ec_fecha_nacimiento := "1999-12-31" |}.

Definition verify (codigo : string) : Registro.validarCodigo_body :=
  {| Registro.vc_correo_electronico := "a@b.com";
     Registro.vc_codigo := codigo |}.

Definition complete : Registro.actualizarUsuario_body :=
  {| Registro.correo_electronico := "a@b.com";
     Registro.password := "Password1!";
     Registro.firstName := "Ana";
     Registro.lastName := "Reyes";
     Registro.maternalLastName := "Cruz";
     Registro.gender := "Femenino";
     Registro.curp := "RECA000101MHGYRNA1";
     Registro.phone := "7711234567";
     Registro.universityOrigin := "1";
     Registro.universityPosition := "2";
     Registro.educationalProgram := EmptyString;
     Registro.workerNumber := "T-100";
     Registro.educationalLevel := "3";
     Registro.antiguedad := EmptyString |}.

(** The member once registered, with a recovery code issued at [t0]. *)
Definition registered : Auth.row :=
  set_codigo "$2b$10$jwt.325000" t0
    (Registro.set_contrasena "$2b$10$Password1!" member).

Definition st_recovery : state :=
  {| autenticacion_usuarios := [registered];
     perfil_usuarios := [profile];
     outbox := [] |}.

Definition verify_recovery (codigo : string) : Recuperar.verificarCodigo_body :=
  {| Recuperar.vc_email := "a@b.com";
     Recuperar.vc_codigo := codigo |}.

Definition change : Recuperar.actualizarContrasena_body :=
  {| Recuperar.email := "a@b.com";
     Recuperar.password := "Secreta!2024";
     Recuperar.confirmPassword := "Secreta!2024" |}.

(** The same world with the mail server down. *)
Definition world_no_mail (t : Z) (draw : Q) : io :=
  {| Date_now := t;
     NOW := t;
     Math_random := draw;
     genSalt := "$2b$10$abcdefghijklmnopqrstuv";
     pwnedpasswords := fun _ => Data EmptyString;
     sendMail := false |}.

(** The same world with a range API that lists ["Password1!"] five times. *)
Definition world_breached (t : Z) (draw : Q) : io :=
  {| Date_now := t;
     NOW := t;
     Math_random := draw;
     genSalt := "$2b$10$abcdefghijklmnopqrstuv";
     pwnedpasswords := fun _ => Data "FC1A0F5B6330E3F4C8C1BBECDE9BEDB9573:5";
     sendMail := true |}.

Definition change_breached : Recuperar.actualizarContrasena_body :=
  {| Recuperar.email := "a@b.com";
     Recuperar.password := "Password1!";
     Recuperar.confirmPassword := "Password1!" |}.

Definition send_recovery : Recuperar.enviarCodigo_body :=
  {| Recuperar.ec_email := "a@b.com" |}.

Definition captcha : Recuperar.verificarCorreoCaptcha_body :=
  {| Recuperar.cc_email := "a@b.com";
     Recuperar.cc_tokenCaptcha := "03AGdBq24" |}.

(** A question from a visitor and one from member 7, unanswered. *)
Definition question (id : Z) (id_usuario : option Z) : Preguntas.Mensaje.row :=
  {| Preguntas.Mensaje.id := id;
     Preguntas.Mensaje.id_usuario := id_usuario;
     Preguntas.Mensaje.nombre := "Luz";
     Preguntas.Mensaje.apellido_paterno := "Mora";
     Preguntas.Mensaje.apellido_materno := EmptyString;
     Preguntas.Mensaje.correo_electronico := "luz@b.com";
     Preguntas.Mensaje.telefono := None;
     Preguntas.Mensaje.mensaje := "Horario?";
     Preguntas.Mensaje.estado := "pendiente";
     Preguntas.Mensaje.creado_en := t0 |}.

Definition questions : Preguntas.state :=
  {| Preguntas.mensajes_contacto := [question 1 None; question 2 (Some 7)];
     Preguntas.mensajes_contacto_respuestas := [];
     Preguntas.outbox := [] |}.

End Scenario.

(** * Properties *)

(** ** The instance *)

Lemma plain_laws : EnvLaws Plain.env.
Proof.
  split; simpl.
  - intros token salt. apply String.eqb_refl.
  - intros code code' salt H. apply String.eqb_eq in H. now inversion H.
Qed.

(** ** Strings *)

Lemma split_not_nil (sep : ascii) (s : string) : JS.split sep s <> [].
Proof.
  destruct s as [|c rest]; simpl; [discriminate|].
  destruct (Ascii.eqb c sep); [discriminate|].
  destruct (JS.split sep rest); discriminate.
Qed.

(** ** The primitives on known values *)

Example sha1_abc :
  SHA1.digest_hex "abc" = "a9993e364706816aba3e25717850c26c9cd0d89d".
Proof. vm_compute. reflexivity. Qed.

Example sha1_empty :
  SHA1.digest_hex EmptyString = "da39a3ee5e6b4b0d3255bfef95601890afd80709".
Proof. vm_compute. reflexivity. Qed.

Example sha1_two_blocks :
  SHA1.digest_hex
    "The quick brown fox jumps over the lazy dog, and more than sixty-four bytes of it"
  = "0c5b8eef901486037df4d41bfd79cf180d4686ca".
Proof. vm_compute. reflexivity. Qed.

Example range_query_of_password :
  prefix "password" = "5BAA6"
  /\ suffix "password" = "1E4C9B93F3F0682250B6CF8331B7EE68FD8".
Proof. vm_compute. split; reflexivity. Qed.

Example split_trim_parseInt :
  JS.split ":" "0018A:3 " = ["0018A"; "3 "]
  /\ JS.split ":" "0018A" = ["0018A"]
  /\ JS.trim "  a b  " = "a b"
  /\ JS.parseInt "12abc" = Some 12
  /\ JS.parseInt "-7" = Some (-7)
  /\ JS.parseInt "abc" = None
  /\ JS.toString 325000 = "325000"
  /\ JS.replace "${codigo}" "325000" "<p>${codigo} ${codigo}</p>"
     = "<p>325000 ${codigo}</p>".
Proof. vm_compute. repeat split. Qed.

(** The stub of the specification: ["Password1!"] listed with count 5 is
    compromised, listed with count 0 it is not. *)
Example password1_breached :
  isPasswordPwned (fun _ => Data "FC1A0F5B6330E3F4C8C1BBECDE9BEDB9573:5") "Password1!"
  = true
  /\ isPasswordPwned (fun _ => Data "FC1A0F5B6330E3F4C8C1BBECDE9BEDB9573:0") "Password1!"
     = false.
Proof. vm_compute. split; reflexivity. Qed.


(** ** The breach checker *)

Lemma first_match_here sfx line rest :
  hashSuffix_of line = sfx -> first_match sfx (line :: rest) line.
Proof. intros H. exists [], rest. auto. Qed.

Lemma first_match_later sfx l lines line :
  hashSuffix_of l <> sfx ->
  first_match sfx lines line -> first_match sfx (l :: lines) line.
Proof.
  intros Hl (before & after & -> & Hb & Hm).
  exists (l :: before)%list, after. auto.
Qed.

Lemma first_match_cons sfx l lines line :
  first_match sfx (l :: lines) line ->
  (hashSuffix_of l = sfx /\ line = l)
  \/ (hashSuffix_of l <> sfx /\ first_match sfx lines line).
Proof.
  intros (before & after & Heq & Hb & Hm).
  destruct before as [|l0 before]; simpl in Heq; inversion Heq; subst.
  - left. auto.
  - right. inversion Hb; subst. split; [assumption|].
    exists before, after. auto.
Qed.

Lemma scanLines_true sfx lines :
  scanLines sfx lines = Some true <->
  exists line, first_match sfx lines line /\ breached line.
Proof.
  induction lines as [|l lines IH]; simpl.
  - split; [discriminate|].
    intros (line & (before & after & Heq & _) & _).
    destruct before; discriminate.
  - assert (Hs : hashSuffix_of l = match JS.split ":" l with
                                   | (h :: _)%list => JS.trim h
                                   | [] => EmptyString
                                   end) by reflexivity.
    assert (Hc : count_of l = match JS.split ":" l with
                              | (_ :: c :: _)%list => JS.parseInt (JS.trim c)
                              | _ => None
                              end) by reflexivity.
    destruct (JS.split ":" l) as [|h fields] eqn:Hsplit.
    { now apply split_not_nil in Hsplit. }
    destruct (String.eqb (JS.trim h) sfx) eqn:Hh.
    + apply String.eqb_eq in Hh. rewrite <- Hs in Hh.
      split.
      * intros H. exists l. split; [now apply first_match_here|].
        destruct fields as [|c fields]; [discriminate|].
        destruct (JS.parseInt (JS.trim c)) as [n|]; [|discriminate].
        exists n. split; [assumption|].
        inversion H as [Hn]. now apply Z.ltb_lt.
      * intros (line & Hfirst & n & Hn & Hpos).
        apply first_match_cons in Hfirst as [[_ ->]|[Hne _]]; [|contradiction].
        rewrite Hc in Hn.
        destruct fields as [|c fields]; [discriminate|].
        rewrite Hn. f_equal. now apply Z.ltb_lt.
    + apply String.eqb_neq in Hh. rewrite <- Hs in Hh.
      rewrite IH. split.
      * intros (line & Hfirst & Hb). exists line.
        split; [now apply first_match_later|assumption].
      * intros (line & Hfirst & Hb). exists line.
        apply first_match_cons in Hfirst as [[Heq _]|[_ Hfirst]];
          [contradiction|auto].
Qed.

(** C6. The breach checker fails open: when the request to the range API
    throws, [isPasswordPwned] answers [false], whatever the password. *)
Theorem isPasswordPwned_fail_open (api : range_api) (password : string) :
  api (prefix password) = Throws ->
  isPasswordPwned api password = false.
Proof.
  intros H. unfold isPasswordPwned. now rewrite H.
Qed.

Lemma isPasswordPwned_fail_open_witness :
  isPasswordPwned (fun _ => Throws) "Password1!" = false.
Proof.
  apply (isPasswordPwned_fail_open (fun _ => Throws) "Password1!").
  reflexivity.
Defined.

(** C7, as stated, fails on a body that lists the suffix twice: the digest
    suffix of ["password"] is in a line with count 5, and the checker still
    answers [false], because the line with count 0 comes first. *)
Lemma isPasswordPwned_later_line_ignored :
  let data := "1E4C9B93F3F0682250B6CF8331B7EE68FD8:0
1E4C9B93F3F0682250B6CF8331B7EE68FD8:5" in
  (exists line,
      In line (JS.split "010" data)
      /\ hashSuffix_of line = suffix "password"
      /\ breached line)
  /\ isPasswordPwned (fun _ => Data data) "password" = false.
Proof.
  split; [|vm_compute; reflexivity].
  exists "1E4C9B93F3F0682250B6CF8331B7EE68FD8:5".
  split; [right; left; reflexivity|].
  split; [vm_compute; reflexivity|].
  exists 5. split; [vm_compute; reflexivity|lia].
Qed.

(** C7, amended. For every password and response body, [isPasswordPwned]
    answers [true] exactly when the first line whose suffix field is the
    password's digest suffix has a count strictly greater than 0; it
    answers [false] when no line has that suffix. *)
Theorem isPasswordPwned_first_matching_line
    (api : range_api) (password data : string) :
  api (prefix password) = Data data ->
  (isPasswordPwned api password = true <->
   exists line,
     first_match (suffix password) (JS.split "010" data) line /\ breached line)
  /\ (Forall (fun l => hashSuffix_of l <> suffix password) (JS.split "010" data) ->
      isPasswordPwned api password = false).
Proof.
  intros Hapi.
  assert (Hiff : isPasswordPwned api password = true <->
                 scanLines (suffix password) (JS.split "010" data) = Some true).
  { unfold isPasswordPwned. rewrite Hapi.
    destruct (scanLines _ _) as [[|]|]; split; congruence. }
  split.
  - rewrite Hiff. apply scanLines_true.
  - intros Hnone.
    apply not_true_is_false. intros Hp.
    apply Hiff, scanLines_true in Hp.
    destruct Hp as (line & (before & after & Heq & _ & Hm) & _).
    rewrite Forall_forall in Hnone.
    exfalso. apply (Hnone line); [|assumption].
    rewrite Heq. apply in_or_app. right. left. reflexivity.
Qed.

Lemma isPasswordPwned_first_matching_line_witness :
  isPasswordPwned
    (fun _ => Data "0018A45C4D1DEF81644B54AB7F969B88D65:1
1E4C9B93F3F0682250B6CF8331B7EE68FD8:3861493") "password" = true.
Proof.
  apply (isPasswordPwned_first_matching_line
           (fun _ => Data "0018A45C4D1DEF81644B54AB7F969B88D65:1
1E4C9B93F3F0682250B6CF8331B7EE68FD8:3861493") "password" _ eq_refl).
  exists "1E4C9B93F3F0682250B6CF8331B7EE68FD8:3861493".
  split.
  - exists ["0018A45C4D1DEF81644B54AB7F969B88D65:1"], [].
    split; [reflexivity|].
    split; [|vm_compute; reflexivity].
    constructor; [|constructor]. vm_compute. discriminate.
  - exists 3861493. split; [vm_compute; reflexivity|lia].
Defined.

(** ** Elapsed time *)

(** [diffMinutes > n] compares whole milliseconds. *)
Lemma diffMinutes_gt (now codeDate n : Z) :
  Recuperar.Qgtb (Recuperar.diffMinutes now codeDate) (inject_Z n)
  = (n * 60000 <? now - codeDate).
Proof.
  unfold Recuperar.Qgtb, Recuperar.diffMinutes, Qle_bool, Qdiv, Qmult, Qinv.
  simpl.
  destruct (Z.leb_spec ((now - codeDate) * 1 * 1) (n * 60000));
    destruct (Z.ltb_spec (n * 60000) (now - codeDate)); simpl; lia.
Qed.

(** ** Lookups and updates *)

Lemma find_update_where {row : Type} (p where_ : row -> bool) (set : row -> row)
    (table : list row) :
  (forall r, p (set r) = p r) ->
  find p (update_where where_ set table)
  = option_map (fun r => if where_ r then set r else r) (find p table).
Proof.
  intros Hp. unfold update_where.
  induction table as [|r table IH]; simpl; [reflexivity|].
  replace (p (if where_ r then set r else r)) with (p r)
    by (destruct (where_ r); [now rewrite Hp|reflexivity]).
  destruct (p r); [reflexivity|exact IH].
Qed.

Lemma filter_update_where {row : Type} (p where_ : row -> bool) (set : row -> row)
    (table : list row) :
  (forall r, p (set r) = p r) ->
  filter p (update_where where_ set table)
  = map (fun r => if where_ r then set r else r) (filter p table).
Proof.
  intros Hp. unfold update_where.
  induction table as [|r table IH]; simpl; [reflexivity|].
  replace (p (if where_ r then set r else r)) with (p r)
    by (destruct (where_ r); [now rewrite Hp|reflexivity]).
  destruct (p r); simpl; now rewrite IH.
Qed.

Lemma preregistrado_nil (E : Env) (correo fecha : string) (st : state) :
  no_match E correo fecha st ->
  Registro.preregistrado E correo fecha st = [].
Proof.
  intros Hno. unfold Registro.preregistrado.
  destruct (flat_map _ _) as [|row rows] eqn:Hrows; [reflexivity|].
  assert (Hin : In row (row :: rows)) by (left; reflexivity).
  rewrite <- Hrows in Hin.
  apply in_flat_map in Hin as (a & Ha & Hin).
  apply in_flat_map in Hin as (p & Hp & Hin).
  destruct (Auth.id a =? Perfil.id p) eqn:Hid; simpl in Hin; [|contradiction].
  destruct (sql_eq E (Auth.correo_electronico a) correo) eqn:Hc;
    simpl in Hin; [|contradiction].
  apply Z.eqb_eq in Hid.
  rewrite (Hno a p Ha Hp Hid Hc) in Hin. contradiction.
Qed.

(** ** Registration: sending the code *)

(** C8. A validated [/enviarCodigo] request whose address and birth date
    match no stored identity is answered 404 and leaves the state as it was:
    no challenge stored, no row changed, no mail delivered. *)
Theorem enviarCodigo_no_match_no_write
    (E : Env) (x : io) (b : Registro.enviarCodigo_body) (st : state) :
  Registro.enviarCodigo_errors E b = [] ->
  no_match E (toLowerCase E (Registro.ec_correo_electronico b))
           (Registro.ec_fecha_nacimiento b) st ->
  Registro.enviarCodigo E x b st = (res 404 (Error "Usuario no encontrado"), st).
Proof.
  intros Hvalid Hno. unfold Registro.enviarCodigo.
  rewrite Hvalid, (preregistrado_nil _ _ _ _ Hno). reflexivity.
Qed.

(** ** Recovery: verifying the code *)

(** C9. [/verificarCodigo] writes nothing: whatever the request and the
    outcome, the tables and the outbox after it are the ones before it. *)
Theorem verificarCodigo_state_unchanged
    (E : Env) (x : io) (b : Recuperar.verificarCodigo_body) (st : state) :
  snd (Recuperar.verificarCodigo E x b st) = st.
Proof.
  unfold Recuperar.verificarCodigo.
  destruct (Recuperar.verificarCodigo_errors E b); [|reflexivity].
  destruct (Recuperar.usuarios E _ st) as [|user rows]; [reflexivity|].
  destruct (Auth.codigo_verificacion user) as [[|c hash]|]; try reflexivity.
  destruct (Auth.fecha_codigo_verificacion user) as [codeDate|]; [|reflexivity].
  destruct (Recuperar.Qgtb _ _); [reflexivity|].
  destruct (bcrypt_compare E _ _); reflexivity.
Qed.

(** ** Expiry *)

(** C10. For an identity that exists and has no timestamp stored,
    [/validarCodigo] answers 400 "El código ha expirado": the missing
    timestamp reads as the epoch, and the clock is more than ten minutes
    past it. *)
Theorem validarCodigo_no_challenge_expired
    (E : Env) (x : io) (b : Registro.validarCodigo_body) (st : state)
    (user : Auth.row) :
  Registro.validarCodigo_errors E b = [] ->
  Registro.usuario E (toLowerCase E (Registro.vc_correo_electronico b)) st
  = Some user ->
  Auth.fecha_codigo_verificacion user = None ->
  10 * 60 * 1000 < Date_now x ->
  Registro.validarCodigo E x b st = (expirado, st).
Proof.
  intros Hvalid Huser Hfecha Hclock. unfold Registro.validarCodigo.
  rewrite Hvalid, Huser, Hfecha. simpl getTime.
  replace (Date_now x - 0 >? 10 * 60 * 1000) with true; [reflexivity|].
  symmetry. apply Z.gtb_lt. lia.
Qed.

(** C3. Both verification steps answer "expired" exactly when the time
    elapsed since the code was issued is strictly greater than ten minutes,
    whatever the submitted code and the stored hash: past the limit the code
    is never compared, and at exactly ten minutes the answer is not
    "expired". *)
Theorem expiry_strict_and_first (E : Env) (x : io) (st : state) :
  (forall (b : Registro.validarCodigo_body) (user : Auth.row) (issuedAt : Z),
      Registro.validarCodigo_errors E b = [] ->
      Registro.usuario E (toLowerCase E (Registro.vc_correo_electronico b)) st
      = Some user ->
      Auth.fecha_codigo_verificacion user = Some issuedAt ->
      (fst (Registro.validarCodigo E x b st) = expirado
       <-> 10 * 60 * 1000 < Date_now x - issuedAt))
  /\
  (forall (b : Recuperar.verificarCodigo_body) (user : Auth.row)
          (rows : list Auth.row) (issuedAt : Z),
      Recuperar.verificarCodigo_errors E b = [] ->
      Recuperar.usuarios E (toLowerCase E (Recuperar.vc_email b)) st
      = (user :: rows)%list ->
      JS.truthy (Auth.codigo_verificacion user) = true ->
      Auth.fecha_codigo_verificacion user = Some issuedAt ->
      (fst (Recuperar.verificarCodigo E x b st) = expirado_recuperacion
       <-> 10 * 60 * 1000 < Date_now x - issuedAt)).
Proof.
  split.
  - intros b user issuedAt Hvalid Huser Hfecha.
    unfold Registro.validarCodigo.
    rewrite Hvalid, Huser, Hfecha. simpl getTime.
    destruct (Z.gtb_spec (Date_now x - issuedAt) (10 * 60 * 1000)) as [Hgt|Hle].
    + split; [lia|reflexivity].
    + split; [|lia]. intros H. exfalso.
      destruct (Auth.codigo_verificacion user) as [hash|];
        [destruct (bcrypt_compare E _ hash)|]; discriminate H.
  - intros b user rows issuedAt Hvalid Huser Hhash Hfecha.
    unfold Recuperar.verificarCodigo.
    rewrite Hvalid, Huser, Hfecha.
    destruct (Auth.codigo_verificacion user) as [[|c hash]|];
      try discriminate Hhash.
    rewrite diffMinutes_gt.
    destruct (Z.ltb_spec (10 * 60000) (Date_now x - issuedAt)) as [Hgt|Hle].
    + split; [lia|reflexivity].
    + split; [|lia]. intros H. exfalso.
      destruct (bcrypt_compare E _ _); discriminate H.
Qed.

(** ** One live challenge per identity *)

Lemma find_unique {row : Type} (p : row -> bool) (table : list row) (r : row) :
  (List.length (filter p table) <= 1)%nat ->
  In r table -> p r = true -> find p table = Some r.
Proof.
  induction table as [|r0 table IH]; simpl; [contradiction|].
  intros Hlen Hin Hr.
  destruct (p r0) eqn:Hr0; simpl in Hlen.
  - destruct Hin as [->|Hin]; [reflexivity|].
    assert (Hf : In r (filter p table)) by (apply filter_In; auto).
    destruct (filter p table); [contradiction|simpl in Hlen; lia].
  - destruct Hin as [->|Hin]; [congruence|auto].
Qed.

Lemma preregistrado_head (E : Env) (correo fecha : string) (st : state)
    (userId registro_completado : Z) (rows : list (Z * Z)) :
  Registro.preregistrado E correo fecha st
  = ((userId, registro_completado) :: rows)%list ->
  exists a,
    In a (autenticacion_usuarios st)
    /\ sql_eq E (Auth.correo_electronico a) correo = true
    /\ Auth.id a = userId.
Proof.
  intros Hrows.
  assert (Hin : In (userId, registro_completado)
                   (Registro.preregistrado E correo fecha st))
    by (rewrite Hrows; left; reflexivity).
  unfold Registro.preregistrado in Hin.
  apply in_flat_map in Hin as (a & Ha & Hin).
  apply in_flat_map in Hin as (p & Hp & Hin).
  exists a. split; [assumption|].
  destruct (Auth.id a =? Perfil.id p); simpl in Hin; [|contradiction].
  destruct (sql_eq E (Auth.correo_electronico a) correo);
    simpl in Hin; [|contradiction].
  destruct (sql_date_eq E (Perfil.fecha_nacimiento p) fecha);
    simpl in Hin; [|contradiction].
  destruct Hin as [Hin|[]]. inversion Hin. auto.
Qed.

(** A [/enviarCodigo] answered 200 has stored the hash of the token of the
    code it drew, with the database's clock, on the rows of the identity
    the join returned first. *)
Lemma enviarCodigo_stored (E : Env) (x : io) (b : Registro.enviarCodigo_body)
    (st st' : state) (r : response) :
  Registro.enviarCodigo E x b st = (r, st') ->
  status r = 200 ->
  exists userId registro_completado rows,
    Registro.preregistrado E (toLowerCase E (Registro.ec_correo_electronico b))
                           (Registro.ec_fecha_nacimiento b) st
    = ((userId, registro_completado) :: rows)%list
    /\ autenticacion_usuarios st'
       = update_where (fun a => Auth.id a =? userId)
           (set_codigo (bcrypt_hash E (jwt_sign E (otpCode x)) (genSalt x)) (NOW x))
           (autenticacion_usuarios st).
Proof.
  unfold Registro.enviarCodigo.
  destruct (Registro.enviarCodigo_errors E b);
    [|intros H; inversion H; subst; discriminate].
  destruct (Registro.preregistrado E _ _ st) as [|[userId rc] rows];
    [intros H; inversion H; subst; discriminate|].
  destruct (rc =? 1); [intros H; inversion H; subst; discriminate|].
  destruct (sendMail x); intros H Hstatus; inversion H; subst;
    [|discriminate].
  exists userId, rc, rows. split; reflexivity.
Qed.

Lemma set_codigo_correo (hashedToken : string) (now : Z) (a : Auth.row) :
  Auth.correo_electronico (set_codigo hashedToken now a)
  = Auth.correo_electronico a.
Proof. reflexivity. Qed.

Lemma unique_email_stored (E : Env) (correo : string) (st st' : state)
    (where_ : Auth.row -> bool) (hashedToken : string) (now : Z) :
  autenticacion_usuarios st'
  = update_where where_ (set_codigo hashedToken now) (autenticacion_usuarios st) ->
  unique_email E correo st -> unique_email E correo st'.
Proof.
  unfold unique_email. intros ->.
  rewrite filter_update_where by reflexivity.
  now rewrite length_map.
Qed.

(** After a [/enviarCodigo] answered 200, the identity [/validarCodigo]
    finds by the address carries the challenge just stored. *)
Lemma usuario_after_send (E : Env) (x : io) (b : Registro.enviarCodigo_body)
    (st st' : state) (r : response) :
  unique_email E (toLowerCase E (Registro.ec_correo_electronico b)) st ->
  Registro.enviarCodigo E x b st = (r, st') ->
  status r = 200 ->
  exists a,
    Registro.usuario E (toLowerCase E (Registro.ec_correo_electronico b)) st'
    = Some (set_codigo (bcrypt_hash E (jwt_sign E (otpCode x)) (genSalt x))
              (NOW x) a).
Proof.
  intros Huniq Hsend Hok.
  destruct (enviarCodigo_stored _ _ _ _ _ _ Hsend Hok)
    as (userId & rc & rows & Hrows & Hst').
  destruct (preregistrado_head _ _ _ _ _ _ _ Hrows) as (a & Ha & Hmatch & Hid).
  exists a. unfold Registro.usuario. rewrite Hst'.
  rewrite find_update_where by reflexivity.
  rewrite (find_unique _ _ _ Huniq Ha Hmatch). simpl.
  apply Z.eqb_eq in Hid. now rewrite Hid.
Qed.

(** The code just issued is accepted within ten minutes. *)
Lemma issued_code_verifies (E : Env) (x1 x2 : io)
    (b : Registro.enviarCodigo_body) (v : Registro.validarCodigo_body)
    (st st1 : state) (r1 : response) :
  EnvLaws E ->
  unique_email E (toLowerCase E (Registro.ec_correo_electronico b)) st ->
  Registro.enviarCodigo E x1 b st = (r1, st1) -> status r1 = 200 ->
  Registro.validarCodigo_errors E v = [] ->
  Registro.vc_correo_electronico v = Registro.ec_correo_electronico b ->
  Registro.vc_codigo v = otpCode x1 ->
  Date_now x2 - NOW x1 <= 10 * 60 * 1000 ->
  fst (Registro.validarCodigo E x2 v st1)
  = res 200 (Message "Código verificado correctamente.").
Proof.
  intros laws Huniq Hsend Hok Hvalid Hcorreo Hcodigo Hwithin.
  destruct (usuario_after_send _ _ _ _ _ _ Huniq Hsend Hok) as (a & Huser).
  unfold Registro.validarCodigo.
  rewrite Hvalid, Hcorreo, Huser, Hcodigo. simpl.
  replace (Date_now x2 - NOW x1 >? 600000) with false
    by (symmetry; rewrite Z.gtb_ltb; apply Z.ltb_ge; lia).
  now rewrite (compare_own_hash E laws).
Qed.

(** C4. A second code replaces the first. When [/enviarCodigo] has been
    answered 200 twice for the same request, drawing two different codes,
    the first code submitted to [/validarCodigo] is answered 400 "Código
    incorrecto", even within ten minutes of its own issue. *)
Theorem reissued_code_replaces_previous
    (E : Env) (x1 x2 x3 : io)
    (b : Registro.enviarCodigo_body) (v : Registro.validarCodigo_body)
    (st st1 st2 : state) (r1 r2 : response) :
  EnvLaws E ->
  unique_email E (toLowerCase E (Registro.ec_correo_electronico b)) st ->
  Registro.enviarCodigo E x1 b st = (r1, st1) -> status r1 = 200 ->
  Registro.enviarCodigo E x2 b st1 = (r2, st2) -> status r2 = 200 ->
  otpCode x1 <> otpCode x2 ->
  NOW x1 <= NOW x2 ->
  Registro.validarCodigo_errors E v = [] ->
  Registro.vc_correo_electronico v = Registro.ec_correo_electronico b ->
  Registro.vc_codigo v = otpCode x1 ->
  Date_now x3 - NOW x1 <= 10 * 60 * 1000 ->
  Registro.validarCodigo E x3 v st2 = (res 400 (Error "Código incorrecto"), st2).
Proof.
  intros laws Huniq Hsend1 Hok1 Hsend2 Hok2 Hcodes Hclock Hvalid Hcorreo Hcodigo
         Hwithin.
  destruct (enviarCodigo_stored _ _ _ _ _ _ Hsend1 Hok1)
    as (uid1 & rc1 & rows1 & _ & Hst1).
  apply (unique_email_stored _ _ _ _ _ _ _ Hst1) in Huniq.
  destruct (usuario_after_send _ _ _ _ _ _ Huniq Hsend2 Hok2) as (a & Huser).
  unfold Registro.validarCodigo.
  rewrite Hvalid, Hcorreo, Huser, Hcodigo. simpl.
  replace (Date_now x3 - NOW x2 >? 600000) with false
    by (symmetry; rewrite Z.gtb_ltb; apply Z.ltb_ge; lia).
  destruct (bcrypt_compare E _ _) eqn:Hcmp; [|reflexivity].
  apply (compare_other_code E laws) in Hcmp. contradiction.
Qed.

(** ** Registration: completing the profile *)

Lemma update_where_hit {row : Type} (where_ : row -> bool) (set : row -> row)
    (table : list row) (r : row) :
  In r (update_where where_ set table) -> where_ r = true ->
  exists r0, In r0 table /\ r = set r0.
Proof.
  unfold update_where. intros Hin Hr.
  apply in_map_iff in Hin as (r0 & Heq & Hin).
  exists r0. split; [assumption|].
  destruct (where_ r0) eqn:Hr0; [auto|]. subst. congruence.
Qed.


(** ** Recovery: changing the password *)

Lemma length_list_ascii_of_string (s : string) :
  List.length (list_ascii_of_string s) = String.length s.
Proof. induction s; simpl; congruence. Qed.

Lemma passwordRegex_strong (password : string) :
  Recuperar.passwordRegex password = true -> strong password.
Proof.
  unfold Recuperar.passwordRegex, strong. intros H.
  repeat (apply andb_prop in H as [H ?]).
  repeat match goal with
         | Hx : existsb _ _ = true |- _ => apply existsb_exists in Hx
         end.
  rewrite <- length_list_ascii_of_string.
  repeat split; try assumption. now apply Nat.leb_le.
Qed.

(** The six conditions of a password change, read off a 200 answer. *)
Lemma actualizarContrasena_200 (E : Env) (x : io)
    (b : Recuperar.actualizarContrasena_body) (st st' : state) (r : response) :
  Recuperar.actualizarContrasena E x b st = (r, st') ->
  status r = 200 ->
  Recuperar.password b = Recuperar.confirmPassword b
  /\ Recuperar.passwordRegex (Recuperar.password b) = true
  /\ isPasswordPwned (pwnedpasswords x) (Recuperar.password b) = false
  /\ exists user rows issuedAt,
       Recuperar.usuarios E (toLowerCase E (Recuperar.email b)) st
       = (user :: rows)%list
       /\ JS.truthy (Auth.codigo_verificacion user) = true
       /\ Auth.fecha_codigo_verificacion user = Some issuedAt
       /\ Date_now x - issuedAt <= 15 * 60 * 1000
       /\ st' = with_auth st
                  (update_where (fun a => Auth.id a =? Auth.id user)
                     (Recuperar.set_contrasena
                        (bcrypt_hash E (Recuperar.password b) (genSalt x)) (NOW x))
                     (autenticacion_usuarios st)).
Proof.
  unfold Recuperar.actualizarContrasena.
  destruct (Recuperar.actualizarContrasena_errors E b);
    [|intros H; inversion H; subst; discriminate].
  destruct (String.eqb_spec (Recuperar.password b) (Recuperar.confirmPassword b))
    as [Hconfirm|_]; simpl;
    [|intros H; inversion H; subst; discriminate].
  destruct (Recuperar.passwordRegex (Recuperar.password b)); simpl;
    [|intros H; inversion H; subst; discriminate].
  destruct (isPasswordPwned (pwnedpasswords x) (Recuperar.password b));
    [intros H; inversion H; subst; discriminate|].
  destruct (Recuperar.usuarios E _ st) as [|user rows];
    [intros H; inversion H; subst; discriminate|].
  destruct (Auth.codigo_verificacion user) as [[|c hash]|] eqn:Hhash;
    try (intros H; inversion H; subst; discriminate).
  destruct (Auth.fecha_codigo_verificacion user) as [issuedAt|] eqn:Hfecha;
    [|intros H; inversion H; subst; discriminate].
  rewrite diffMinutes_gt.
  destruct (Z.ltb_spec (15 * 60000) (Date_now x - issuedAt)) as [_|Hwithin];
    [intros H; inversion H; subst; discriminate|].
  intros H _. inversion H; subst.
  split; [assumption|]. split; [reflexivity|]. split; [reflexivity|].
  exists user, rows, issuedAt. rewrite Hhash.
  split; [reflexivity|]. split; [reflexivity|]. split; [exact Hfecha|].
  split; [lia|reflexivity].
Qed.

(** Conversely, a validated request that meets the conditions is answered
    200. *)
Lemma actualizarContrasena_succeeds_when (E : Env) (x : io)
    (b : Recuperar.actualizarContrasena_body) (st : state)
    (user : Auth.row) (rows : list Auth.row) (issuedAt : Z) :
  Recuperar.actualizarContrasena_errors E b = [] ->
  Recuperar.password b = Recuperar.confirmPassword b ->
  Recuperar.passwordRegex (Recuperar.password b) = true ->
  isPasswordPwned (pwnedpasswords x) (Recuperar.password b) = false ->
  Recuperar.usuarios E (toLowerCase E (Recuperar.email b)) st
  = (user :: rows)%list ->
  JS.truthy (Auth.codigo_verificacion user) = true ->
  Auth.fecha_codigo_verificacion user = Some issuedAt ->
  Date_now x - issuedAt <= 15 * 60 * 1000 ->
  status (fst (Recuperar.actualizarContrasena E x b st)) = 200.
Proof.
  intros Hvalid Hconfirm Hregex Hpwned Hrows Hhash Hfecha Hwithin.
  unfold Recuperar.actualizarContrasena.
  apply String.eqb_eq in Hconfirm.
  rewrite Hvalid, Hconfirm, Hregex, Hpwned, Hrows, Hfecha. simpl.
  destruct (Auth.codigo_verificacion user) as [[|c hash]|];
    try discriminate Hhash.
  rewrite diffMinutes_gt.
  destruct (Z.ltb_spec (15 * 60000) (Date_now x - issuedAt)); [lia|reflexivity].
Qed.

(** C5. [/actualizarContrasena] is answered 200 only when the password
    equals its confirmation, passes the strength pattern (an upper-case
    letter, a lower-case letter, a digit, a special character, eight
    characters or more), is not reported breached, the address finds an
    identity, that identity holds a hash and a timestamp, and at most
    fifteen minutes have passed since the timestamp; the answer comes with
    the new password hash stored and the hash and timestamp of the challenge
    set to NULL on the rows of that identity, and no other change. *)
Theorem actualizarContrasena_succeeds_only_when
    (E : Env) (x : io) (b : Recuperar.actualizarContrasena_body)
    (st st' : state) (r : response) :
  Recuperar.actualizarContrasena E x b st = (r, st') ->
  status r = 200 ->
  Recuperar.password b = Recuperar.confirmPassword b
  /\ strong (Recuperar.password b)
  /\ isPasswordPwned (pwnedpasswords x) (Recuperar.password b) = false
  /\ exists user rows issuedAt,
       Recuperar.usuarios E (toLowerCase E (Recuperar.email b)) st
       = (user :: rows)%list
       /\ JS.truthy (Auth.codigo_verificacion user) = true
       /\ Auth.fecha_codigo_verificacion user = Some issuedAt
       /\ Date_now x - issuedAt <= 15 * 60 * 1000
       /\ st' = with_auth st
                  (update_where (fun a => Auth.id a =? Auth.id user)
                     (Recuperar.set_contrasena
                        (bcrypt_hash E (Recuperar.password b) (genSalt x)) (NOW x))
                     (autenticacion_usuarios st))
       /\ (forall a, In a (autenticacion_usuarios st') ->
                     Auth.id a = Auth.id user ->
                     Auth.contrasena a
                     = Some (bcrypt_hash E (Recuperar.password b) (genSalt x))
                     /\ Auth.codigo_verificacion a = None
                     /\ Auth.fecha_codigo_verificacion a = None).
Proof.
  intros Hrun Hok.
  destruct (actualizarContrasena_200 _ _ _ _ _ _ Hrun Hok)
    as (Hconfirm & Hregex & Hpwned & user & rows & issuedAt
        & Hrows & Hhash & Hfecha & Hwithin & Hst').
  split; [assumption|].
  split; [now apply passwordRegex_strong|].
  split; [assumption|].
  exists user, rows, issuedAt.
  do 5 (split; [assumption|]).
  intros a Hin Hid. rewrite Hst' in Hin. simpl in Hin.
  apply update_where_hit in Hin as (a0 & _ & ->);
    [repeat split|now apply Z.eqb_eq].
Qed.

(** ** Single use *)






(** ** The properties on the run *)

(** The registration of the member, end to end: code sent and stored, code
    accepted and [verificado] set, profile completed. *)
Example registration_end_to_end :
  let x1 := Scenario.world Scenario.t0 (1 # 4) in
  let x2 := Scenario.world (Scenario.t0 + Scenario.minutes 3) (1 # 4) in
  let x3 := Scenario.world (Scenario.t0 + Scenario.minutes 5) (1 # 4) in
  let '(r1, st1) := Registro.enviarCodigo Plain.env x1 Scenario.send Scenario.st0 in
  let '(r2, st2) := Registro.validarCodigo Plain.env x2 (Scenario.verify "325000") st1 in
  let '(r3, st3) := Registro.actualizarUsuario Plain.env x3 Scenario.complete st2 in
  status r1 = 200
  /\ map html (outbox st1) = ["<p>325000</p>"]
  /\ status r2 = 200
  /\ map Auth.verificado (autenticacion_usuarios st2) = [1]
  /\ status r3 = 200
  /\ map Auth.registro_completado (autenticacion_usuarios st3) = [1].
Proof. vm_compute. repeat split. Qed.

Lemma enviarCodigo_no_match_no_write_witness :
  Registro.enviarCodigo Plain.env (Scenario.world Scenario.t0 (1 # 4))
    Scenario.send_wrong_date Scenario.st0
  = (res 404 (Error "Usuario no encontrado"), Scenario.st0).
Proof.
  apply enviarCodigo_no_match_no_write.
  - reflexivity.
  - intros a p [<-|[]] [<-|[]] _ _. reflexivity.
Defined.

Lemma validarCodigo_no_challenge_expired_witness :
  Registro.validarCodigo Plain.env (Scenario.world Scenario.t0 (1 # 4))
    (Scenario.verify "325000") Scenario.st0
  = (expirado, Scenario.st0).
Proof.
  apply (validarCodigo_no_challenge_expired Plain.env _ _ _ Scenario.member);
    reflexivity.
Defined.

(** At exactly ten minutes the recovery code of the scenario is still
    compared, and accepted. *)
Lemma expiry_strict_and_first_witness :
  fst (Recuperar.verificarCodigo Plain.env
         (Scenario.world (Scenario.t0 + Scenario.minutes 10) (1 # 4))
         (Scenario.verify_recovery "325000") Scenario.st_recovery)
  = expirado_recuperacion
  <-> 10 * 60 * 1000 < Scenario.t0 + Scenario.minutes 10 - Scenario.t0.
Proof.
  apply (proj2 (expiry_strict_and_first Plain.env
                  (Scenario.world (Scenario.t0 + Scenario.minutes 10) (1 # 4))
                  Scenario.st_recovery)
           (Scenario.verify_recovery "325000") Scenario.registered []);
    reflexivity.
Defined.

Lemma reissued_code_replaces_previous_witness :
  let x1 := Scenario.world Scenario.t0 (1 # 4) in
  let x2 := Scenario.world (Scenario.t0 + Scenario.minutes 1) (1 # 2) in
  let x3 := Scenario.world (Scenario.t0 + Scenario.minutes 2) (3 # 4) in
  let st1 := snd (Registro.enviarCodigo Plain.env x1 Scenario.send Scenario.st0) in
  let st2 := snd (Registro.enviarCodigo Plain.env x2 Scenario.send st1) in
  Registro.validarCodigo Plain.env x3 (Scenario.verify "325000") st2
  = (res 400 (Error "Código incorrecto"), st2).
Proof.
  intros x1 x2 x3 st1 st2.
  apply (reissued_code_replaces_previous Plain.env x1 x2 x3 Scenario.send
           (Scenario.verify "325000") Scenario.st0 st1 st2
           (fst (Registro.enviarCodigo Plain.env x1 Scenario.send Scenario.st0))
           (fst (Registro.enviarCodigo Plain.env x2 Scenario.send st1))).
  - exact plain_laws.
  - vm_compute. apply le_n.
  - apply surjective_pairing.
  - reflexivity.
  - apply surjective_pairing.
  - reflexivity.
  - vm_compute. discriminate.
  - vm_compute. discriminate.
  - reflexivity.
  - reflexivity.
  - reflexivity.
  - vm_compute. discriminate.
Defined.


(** Twelve minutes after the code was issued is too late to verify it and
    still in time to change the password. *)
Lemma actualizarContrasena_succeeds_only_when_witness :
  strong "Secreta!2024"
  /\ fst (Recuperar.verificarCodigo Plain.env
            (Scenario.world (Scenario.t0 + Scenario.minutes 12) (1 # 4))
            (Scenario.verify_recovery "325000") Scenario.st_recovery)
     = expirado_recuperacion.
Proof.
  split; [|reflexivity].
  pose (x := Scenario.world (Scenario.t0 + Scenario.minutes 12) (1 # 4)).
  pose (run := Recuperar.actualizarContrasena Plain.env x Scenario.change
                 Scenario.st_recovery).
  apply (actualizarContrasena_succeeds_only_when Plain.env x Scenario.change
           Scenario.st_recovery (snd run) (fst run)).
  - apply surjective_pairing.
  - vm_compute. reflexivity.
Defined.


(** * Further properties *)

(** ** Strings *)

(** Splitting loses nothing: joining the pieces with the separator gives the
    string back. *)
Lemma join_split (sep : ascii) (s : string) :
  join sep (JS.split sep s) = s.
Proof.
  induction s as [|c rest IH]; [reflexivity|].
  simpl JS.split.
  destruct (Ascii.eqb_spec c sep) as [->|Hc].
  - destruct (JS.split sep rest) as [|piece pieces] eqn:Hs.
    + now apply split_not_nil in Hs.
    + change (join sep (EmptyString :: piece :: pieces))
        with (String sep (join sep (piece :: pieces))).
      now rewrite IH.
  - destruct (JS.split sep rest) as [|piece pieces] eqn:Hs.
    + now apply split_not_nil in Hs.
    + destruct pieces as [|piece' pieces]; simpl in *; now rewrite IH.
Qed.

Lemma trimEnd_CR (s : string) :
  JS.trimEnd (s ++ String CR EmptyString) = JS.trimEnd s.
Proof.
  induction s as [|c rest IH]; [reflexivity|].
  simpl. now rewrite IH.
Qed.

Lemma trim_CR (s : string) :
  JS.trim (s ++ String CR EmptyString) = JS.trim s.
Proof.
  unfold JS.trim.
  induction s as [|c rest IH]; [reflexivity|].
  simpl. destruct (JS.isWhiteSpace c); [exact IH|].
  apply (trimEnd_CR (String c rest)).
Qed.

Lemma up_to_CR_trim (s' s : string) : up_to_CR s' s -> JS.trim s' = JS.trim s.
Proof. intros [->| ->]; [reflexivity|apply trim_CR]. Qed.

Lemma up_to_CR_cons (c : ascii) (s' s : string) :
  up_to_CR s' s -> up_to_CR (String c s') (String c s).
Proof. intros [->| ->]; [left|right]; reflexivity. Qed.

Lemma split_up_to_CR (sep : ascii) (s' s : string) :
  Ascii.eqb CR sep = false ->
  up_to_CR s' s ->
  Forall2 up_to_CR (JS.split sep s') (JS.split sep s).
Proof.
  intros Hsep [->| ->].
  - induction (JS.split sep s); constructor; [left; reflexivity|assumption].
  - induction s as [|c rest IH].
    + cbn [JS.split append]. rewrite Hsep.
      constructor; [right; reflexivity|constructor].
    + change (String c rest ++ String CR EmptyString)
        with (String c (rest ++ String CR EmptyString)).
      simpl JS.split.
      destruct (Ascii.eqb c sep).
      * constructor; [left; reflexivity|exact IH].
      * destruct (JS.split sep (rest ++ String CR EmptyString))
          as [|p' ps']; destruct (JS.split sep rest) as [|p ps];
          inversion IH; subst;
          (constructor;
           [first [now apply up_to_CR_cons|left; reflexivity]|assumption]).
Qed.

Lemma split_crlf (data : string) :
  Forall2 up_to_CR (JS.split LF (crlf data)) (JS.split LF data).
Proof.
  induction data as [|c rest IH].
  - constructor; [left; reflexivity|constructor].
  - simpl crlf. destruct (Ascii.eqb c LF) eqn:Hc.
    + apply Ascii.eqb_eq in Hc. subst c.
      change (JS.split LF (String LF rest))
        with (EmptyString :: JS.split LF rest)%list.
      change (JS.split LF (String CR (String LF (crlf rest))))
        with (match (EmptyString :: JS.split LF (crlf rest))%list with
              | [] => [String CR EmptyString]
              | (piece :: pieces)%list => (String CR piece :: pieces)%list
              end).
      constructor; [right; reflexivity|exact IH].
    + simpl JS.split. rewrite Hc.
      destruct (JS.split LF (crlf rest)) as [|p' ps'];
        destruct (JS.split LF rest) as [|p ps]; inversion IH; subst;
        (constructor;
           [first [now apply up_to_CR_cons|left; reflexivity]|assumption]).
Qed.

Lemma scanLines_up_to_CR (sfx : string) (lines' lines : list string) :
  Forall2 up_to_CR lines' lines ->
  scanLines sfx lines' = scanLines sfx lines.
Proof.
  induction 1 as [|l' l lines' lines Hl _ IH]; [reflexivity|].
  simpl.
  pose proof (split_up_to_CR ":" l' l eq_refl Hl) as Hfields.
  destruct Hfields as [|h' h fs' fs Hh Hfs]; [reflexivity|].
  rewrite (up_to_CR_trim _ _ Hh).
  destruct (String.eqb (JS.trim h) sfx); [|exact IH].
  destruct Hfs as [|c' c fs' fs Hc _]; [reflexivity|].
  now rewrite (up_to_CR_trim _ _ Hc).
Qed.

(** The breach checker reads a body with CR LF line ends as it reads the
    same body with LF line ends. *)
Theorem isPasswordPwned_crlf (password data : string) :
  isPasswordPwned (fun _ => Data (crlf data)) password
  = isPasswordPwned (fun _ => Data data) password.
Proof.
  unfold isPasswordPwned.
  change "010"%char with LF.
  now rewrite (scanLines_up_to_CR _ _ _ (split_crlf data)).
Qed.

Lemma prefix_split (p s : string) :
  String.prefix p s = true -> s = p ++ JS.substringFrom (String.length p) s.
Proof.
  revert s. induction p as [|a p IH]; intros s H; [reflexivity|].
  destruct s as [|b s]; simpl in H; [discriminate|].
  destruct (ascii_dec a b) as [->|_]; [|discriminate].
  simpl. f_equal. now apply IH.
Qed.

Lemma prefix_append (p after : string) : String.prefix p (p ++ after) = true.
Proof.
  induction p as [|a p IH]; [now destruct after|].
  simpl. destruct (ascii_dec a a); [exact IH|contradiction].
Qed.

Lemma occurs_cons (pat : string) (c : ascii) (s : string) :
  occurs pat s -> occurs pat (String c s).
Proof.
  intros (before & after & ->). now exists (String c before), after.
Qed.

Lemma occurs_later (pat : string) (c : ascii) (s : string) :
  String.prefix pat (String c s) = false ->
  occurs pat (String c s) -> occurs pat s.
Proof.
  intros Hp (before & after & Heq).
  destruct before as [|b before].
  - simpl in Heq. rewrite Heq, prefix_append in Hp. discriminate.
  - inversion Heq. now exists before, after.
Qed.

Lemma replace_eq (pat by_ s : string) :
  JS.replace pat by_ s
  = if String.prefix pat s
    then by_ ++ JS.substringFrom (String.length pat) s
    else match s with
         | String c rest => String c (JS.replace pat by_ rest)
         | EmptyString => EmptyString
         end.
Proof. destruct s; reflexivity. Qed.

(** [replace] substitutes one occurrence of the pattern and keeps what is
    around it; a string without the pattern comes back unchanged. *)
Lemma replace_cases (pat by_ s : string) :
  (occurs pat s ->
   exists before after,
     s = before ++ pat ++ after
     /\ JS.replace pat by_ s = before ++ by_ ++ after)
  /\ (~ occurs pat s -> JS.replace pat by_ s = s).
Proof.
  induction s as [|c s [IHin IHout]].
  - split.
    + intros (before & after & Heq). exists EmptyString, EmptyString.
      destruct before; [|discriminate]. destruct pat; [|discriminate].
      destruct after; [|discriminate].
      split; [reflexivity|]. simpl. now destruct by_.
    + intros Hno. destruct pat; [|reflexivity].
      exfalso. apply Hno. now exists EmptyString, EmptyString.
  - rewrite replace_eq.
    destruct (String.prefix pat (String c s)) eqn:Hp.
    + split.
      * intros _. exists EmptyString, (JS.substringFrom (String.length pat) (String c s)).
        split; [now apply prefix_split|reflexivity].
      * intros Hno. exfalso. apply Hno.
        exists EmptyString, (JS.substringFrom (String.length pat) (String c s)).
        now apply prefix_split.
    + split.
      * intros Hocc. apply (occurs_later _ _ _ Hp) in Hocc.
        destruct (IHin Hocc) as (before & after & Heq & Hrep).
        exists (String c before), after. simpl. now rewrite <- Heq, Hrep.
      * intros Hno. f_equal. apply IHout. intros Hocc.
        apply Hno. now apply occurs_cons.
Qed.

(** ** The range query *)

Lemma length_toUpperCase (s : string) :
  String.length (JS.toUpperCase s) = String.length s.
Proof. induction s; simpl; congruence. Qed.

Lemma toUpperCase_append (s t : string) :
  JS.toUpperCase (s ++ t) = JS.toUpperCase s ++ JS.toUpperCase t.
Proof. induction s; simpl; congruence. Qed.

Lemma list_ascii_of_string_append (s t : string) :
  list_ascii_of_string (s ++ t)
  = (list_ascii_of_string s ++ list_ascii_of_string t)%list.
Proof. induction s; simpl; congruence. Qed.

Lemma length_append (s t : string) :
  String.length (s ++ t) = (String.length s + String.length t)%nat.
Proof. induction s; simpl; congruence. Qed.

Lemma substring_split (n : nat) (s : string) :
  JS.substringTo n s ++ JS.substringFrom n s = s.
Proof.
  revert s. induction n as [|n IH]; intros [|c s]; simpl; try reflexivity.
  now rewrite IH.
Qed.

Lemma length_substringTo (n : nat) (s : string) :
  (n <= String.length s)%nat -> String.length (JS.substringTo n s) = n.
Proof.
  revert s. induction n as [|n IH]; intros [|c s]; simpl; intros H;
    try reflexivity; try lia.
  rewrite IH; lia.
Qed.

Lemma upperHex_hexDigit (n : Z) :
  0 <= n < 16 -> isUpperHex (JS.upperChar (SHA1.hexDigit n)) = true.
Proof.
  intros Hn.
  assert (Hall : forallb
                   (fun i => isUpperHex (JS.upperChar (SHA1.hexDigit (Z.of_nat i))))
                   (seq 0 16) = true) by reflexivity.
  rewrite forallb_forall in Hall.
  specialize (Hall (Z.to_nat n)). rewrite Z2Nat.id in Hall by lia.
  apply Hall, in_seq. lia.
Qed.

Lemma upperHex_hex_map (f : nat -> Z) (l : list nat) :
  forallb isUpperHex
    (list_ascii_of_string
       (JS.toUpperCase
          (string_of_list_ascii (map (fun i => SHA1.hexDigit (f i mod 16)) l))))
  = true.
Proof.
  induction l as [|i l IH]; [reflexivity|].
  cbn [map string_of_list_ascii JS.toUpperCase list_ascii_of_string forallb].
  rewrite IH, upperHex_hexDigit; [reflexivity|].
  apply Z.mod_pos_bound. lia.
Qed.

Lemma upperHex_hex32 (x : Z) :
  forallb isUpperHex (list_ascii_of_string (JS.toUpperCase (SHA1.hex32 x))) = true.
Proof.
  exact (upperHex_hex_map (fun i => Z.shiftr x (4 * (7 - Z.of_nat i))) (seq 0 8)).
Qed.

Lemma length_hex32 (x : Z) : String.length (SHA1.hex32 x) = 8%nat.
Proof. reflexivity. Qed.

(** The digest in upper case is forty characters, each a digit or a letter
    from A to F. *)
Lemma sha1Hash_shape (password : string) :
  String.length (sha1Hash password) = 40%nat
  /\ forallb isUpperHex (list_ascii_of_string (sha1Hash password)) = true.
Proof.
  unfold sha1Hash, SHA1.digest_hex.
  destruct (SHA1.blocks _ _ _) as [[[[h0 h1] h2] h3] h4].
  split.
  - rewrite length_toUpperCase, !length_append, !length_hex32. reflexivity.
  - rewrite !toUpperCase_append, !list_ascii_of_string_append, !forallb_app,
      !upperHex_hex32. reflexivity.
Qed.

Lemma range_query_facts (password : string) :
  String.length (prefix password) = 5%nat
  /\ String.length (suffix password) = 35%nat
  /\ prefix password ++ suffix password = sha1Hash password
  /\ forallb isUpperHex (list_ascii_of_string (prefix password)) = true
  /\ forallb isUpperHex (list_ascii_of_string (suffix password)) = true.
Proof.
  destruct (sha1Hash_shape password) as [Hlen Hhex].
  assert (Hsplit : prefix password ++ suffix password = sha1Hash password)
    by apply substring_split.
  assert (Hp : String.length (prefix password) = 5%nat)
    by (apply length_substringTo; lia).
  rewrite <- Hsplit, list_ascii_of_string_append, forallb_app in Hhex.
  apply andb_prop in Hhex as [Hhp Hhs].
  rewrite <- Hsplit, length_append, Hp in Hlen.
  repeat split; try assumption. lia.
Qed.

(** What goes to the range API is five characters of the digest, what is
    compared locally is the other thirty-five, and both are upper-case
    hexadecimal. *)
Theorem range_query_shape (password : string) :
  String.length (prefix password) = 5%nat
  /\ String.length (suffix password) = 35%nat
  /\ prefix password ++ suffix password = sha1Hash password
  /\ forallb isUpperHex (list_ascii_of_string (prefix password)) = true
  /\ forallb isUpperHex (list_ascii_of_string (suffix password)) = true.
Proof. exact (range_query_facts password). Qed.

Lemma upperHex_not_lower (c : ascii) :
  isUpperHex c = true -> Recuperar.isLower c = false.
Proof.
  unfold isUpperHex, Recuperar.isLower, JS.isDigit.
  destruct (nat_of_ascii c) as [|n] eqn:Hn; [discriminate|].
  intros H. apply orb_prop in H.
  apply andb_false_iff.
  destruct H as [H|H]; apply andb_prop in H as [_ H]; apply Nat.leb_le in H;
    left; apply Nat.leb_gt; lia.
Qed.

Lemma scanLines_no_match (sfx : string) (lines : list string) :
  Forall (fun l => hashSuffix_of l <> sfx) lines ->
  scanLines sfx lines <> Some true.
Proof.
  intros Hnone Htrue.
  apply scanLines_true in Htrue as (line & (before & after & Heq & _ & Hm) & _).
  rewrite Forall_forall in Hnone. apply (Hnone line); [|assumption].
  rewrite Heq. apply in_or_app. right. left. reflexivity.
Qed.

(** The suffix is compared as it stands against the upper-case digest: a
    body whose suffix fields each hold a lower-case letter reports no
    password as breached, whatever its counts. *)
Theorem isPasswordPwned_case_sensitive
    (api : range_api) (password data : string) :
  api (prefix password) = Data data ->
  Forall (fun l => exists c, In c (list_ascii_of_string (hashSuffix_of l))
                             /\ Recuperar.isLower c = true)
         (JS.split LF data) ->
  isPasswordPwned api password = false.
Proof.
  intros Hapi Hlower.
  destruct (range_query_facts password) as (_ & _ & _ & _ & Hhex).
  assert (Hnone : Forall (fun l => hashSuffix_of l <> suffix password)
                         (JS.split LF data)).
  { eapply Forall_impl; [|exact Hlower].
    intros l (c & Hin & Hc) Heq. rewrite Heq in Hin.
    rewrite forallb_forall in Hhex.
    apply Hhex, upperHex_not_lower in Hin. congruence. }
  apply scanLines_no_match in Hnone.
  unfold isPasswordPwned. rewrite Hapi. change "010"%char with LF.
  destruct (scanLines _ _) as [[|]|]; congruence.
Qed.

(** ** Registration: what sending a code changes *)

Lemma credenciales_set_codigo (where_ : Auth.row -> bool) (hashedToken : string)
    (now : Z) (rows : list Auth.row) :
  map credenciales (update_where where_ (set_codigo hashedToken now) rows)
  = map credenciales rows.
Proof.
  unfold update_where. rewrite map_map. apply map_ext.
  intros a. now destruct (where_ a).
Qed.

Lemma challenge_only_refl (st : state) : challenge_only st st.
Proof. repeat split. now left. Qed.

Lemma challenge_only_stored (st : state) (where_ : Auth.row -> bool)
    (hashedToken : string) (now : Z) :
  challenge_only st
    (with_auth st
       (update_where where_ (set_codigo hashedToken now)
          (autenticacion_usuarios st))).
Proof. split; [apply credenciales_set_codigo|split; [reflexivity|now left]]. Qed.

Lemma challenge_only_delivered (st : state) (where_ : Auth.row -> bool)
    (hashedToken : string) (now : Z) (m : mail) :
  challenge_only st
    (deliver
       (with_auth st
          (update_where where_ (set_codigo hashedToken now)
             (autenticacion_usuarios st))) m).
Proof.
  split; [apply credenciales_set_codigo|split; [reflexivity|right; now exists m]].
Qed.

(** The three "send code" handlers, whatever they answer, change nothing
    but the hash and the timestamp of the challenge, and deliver at most one
    mail. *)
Theorem enviarCodigo_changes_challenge_only
    (E : Env) (x : io) (resend : RegistroResend.resend_result)
    (b : Registro.enviarCodigo_body) (b' : Recuperar.enviarCodigo_body)
    (st : state) :
  challenge_only st (snd (Registro.enviarCodigo E x b st))
  /\ challenge_only st (snd (RegistroResend.enviarCodigo E x resend b st))
  /\ challenge_only st (snd (Recuperar.enviarCodigo E x b' st)).
Proof.
  split; [|split].
  - unfold Registro.enviarCodigo.
    destruct (Registro.enviarCodigo_errors E b); [|apply challenge_only_refl].
    destruct (Registro.preregistrado E _ _ st) as [|[userId rc] rows];
      [apply challenge_only_refl|].
    destruct (rc =? 1); [apply challenge_only_refl|].
    destruct (sendMail x);
      [apply challenge_only_delivered|apply challenge_only_stored].
  - unfold RegistroResend.enviarCodigo.
    destruct (Registro.enviarCodigo_errors E b); [|apply challenge_only_refl].
    destruct (Registro.preregistrado E _ _ st) as [|[userId rc] rows];
      [apply challenge_only_refl|].
    destruct (rc =? 1); [apply challenge_only_refl|].
    destruct resend;
      [apply challenge_only_stored|apply challenge_only_stored
      |apply challenge_only_delivered].
  - unfold Recuperar.enviarCodigo.
    destruct (Recuperar.enviarCodigo_errors E b'); [|apply challenge_only_refl].
    destruct (Recuperar.usuarios E _ st) as [|user rows];
      [apply challenge_only_refl|].
    destruct (_ || _); [apply challenge_only_refl|].
    destruct (sendMail x);
      [apply challenge_only_delivered|apply challenge_only_stored].
Qed.

(** The version that sends with Resend writes the tables exactly as the
    version that sends with nodemailer, whatever happens to the mail. *)
Theorem enviarCodigo_versions_agree
    (E : Env) (x : io) (resend : RegistroResend.resend_result)
    (b : Registro.enviarCodigo_body) (st : state) :
  let st1 := snd (Registro.enviarCodigo E x b st) in
  let st2 := snd (RegistroResend.enviarCodigo E x resend b st) in
  autenticacion_usuarios st2 = autenticacion_usuarios st1
  /\ perfil_usuarios st2 = perfil_usuarios st1
  /\ (status (fst (RegistroResend.enviarCodigo E x resend b st)) = 200
      <-> resend = RegistroResend.Sent
          /\ status (fst (Registro.enviarCodigo E x b st)) <> 400
          /\ status (fst (Registro.enviarCodigo E x b st)) <> 404).
Proof.
  unfold Registro.enviarCodigo, RegistroResend.enviarCodigo.
  destruct (Registro.enviarCodigo_errors E b);
    [destruct (Registro.preregistrado E _ _ st) as [|[userId rc] rows];
     [|destruct (rc =? 1); [|destruct resend, (sendMail x)]]|];
    simpl; (split; [reflexivity|split; [reflexivity|]]);
    (split; [intros H|intros (H1 & H2 & H3)]);
    try discriminate; try congruence; repeat split; discriminate.
Qed.

Lemma preregistrado_head_row (E : Env) (correo fecha : string) (st : state)
    (userId registro_completado : Z) (rows : list (Z * Z)) :
  Registro.preregistrado E correo fecha st
  = ((userId, registro_completado) :: rows)%list ->
  exists a,
    In a (autenticacion_usuarios st)
    /\ sql_eq E (Auth.correo_electronico a) correo = true
    /\ Auth.id a = userId
    /\ Auth.registro_completado a = registro_completado.
Proof.
  intros Hrows.
  assert (Hin : In (userId, registro_completado)
                   (Registro.preregistrado E correo fecha st))
    by (rewrite Hrows; left; reflexivity).
  unfold Registro.preregistrado in Hin.
  apply in_flat_map in Hin as (a & Ha & Hin).
  apply in_flat_map in Hin as (p & Hp & Hin).
  exists a. split; [assumption|].
  destruct (Auth.id a =? Perfil.id p); simpl in Hin; [|contradiction].
  destruct (sql_eq E (Auth.correo_electronico a) correo);
    simpl in Hin; [|contradiction].
  destruct (sql_date_eq E (Perfil.fecha_nacimiento p) fecha);
    simpl in Hin; [|contradiction].
  destruct Hin as [Hin|[]]. inversion Hin. auto.
Qed.

Lemma usuario_after_store (E : Env) (correo fecha : string) (st st' : state)
    (userId registro_completado : Z) (rows : list (Z * Z))
    (hashedToken : string) (now : Z) :
  unique_email E correo st ->
  Registro.preregistrado E correo fecha st
  = ((userId, registro_completado) :: rows)%list ->
  autenticacion_usuarios st'
  = update_where (fun a => Auth.id a =? userId) (set_codigo hashedToken now)
      (autenticacion_usuarios st) ->
  exists a, Registro.usuario E correo st' = Some (set_codigo hashedToken now a).
Proof.
  intros Huniq Hrows Hst'.
  destruct (preregistrado_head _ _ _ _ _ _ _ Hrows) as (a & Ha & Hmatch & Hid).
  exists a. unfold Registro.usuario. rewrite Hst'.
  rewrite find_update_where by reflexivity.
  rewrite (find_unique _ _ _ Huniq Ha Hmatch). simpl.
  apply Z.eqb_eq in Hid. now rewrite Hid.
Qed.

Lemma validarCodigo_accepts (E : Env) (x : io) (v : Registro.validarCodigo_body)
    (st : state) (a : Auth.row) (code salt : string) (issuedAt : Z) :
  EnvLaws E ->
  Registro.validarCodigo_errors E v = [] ->
  Registro.usuario E (toLowerCase E (Registro.vc_correo_electronico v)) st
  = Some (set_codigo (bcrypt_hash E (jwt_sign E code) salt) issuedAt a) ->
  Registro.vc_codigo v = code ->
  Date_now x - issuedAt <= 10 * 60 * 1000 ->
  fst (Registro.validarCodigo E x v st) = verificado_ok.
Proof.
  intros laws Hvalid Huser Hcodigo Hwithin.
  unfold Registro.validarCodigo.
  rewrite Hvalid, Huser, Hcodigo. simpl.
  replace (Date_now x - issuedAt >? 600000) with false
    by (symmetry; rewrite Z.gtb_ltb; apply Z.ltb_ge; lia).
  now rewrite (compare_own_hash E laws).
Qed.

(** Nothing is rolled back when the mail fails: [/enviarCodigo] answered
    500 has stored the challenge and delivered no mail, and the code nobody
    received is accepted by [/validarCodigo] within ten minutes. *)
Theorem unsent_code_still_verifies
    (E : Env) (x1 x2 : io)
    (b : Registro.enviarCodigo_body) (v : Registro.validarCodigo_body)
    (st st1 : state) (r1 : response) :
  EnvLaws E ->
  unique_email E (toLowerCase E (Registro.ec_correo_electronico b)) st ->
  Registro.enviarCodigo E x1 b st = (r1, st1) ->
  status r1 = 500 ->
  Registro.validarCodigo_errors E v = [] ->
  Registro.vc_correo_electronico v = Registro.ec_correo_electronico b ->
  Registro.vc_codigo v = otpCode x1 ->
  Date_now x2 - NOW x1 <= 10 * 60 * 1000 ->
  outbox st1 = outbox st
  /\ fst (Registro.validarCodigo E x2 v st1) = verificado_ok.
Proof.
  intros laws Huniq Hsend H500 Hvalid Hcorreo Hcodigo Hwithin.
  unfold Registro.enviarCodigo in Hsend.
  destruct (Registro.enviarCodigo_errors E b);
    [|inversion Hsend; subst; discriminate].
  destruct (Registro.preregistrado E _ _ st) as [|[userId rc] rows] eqn:Hrows;
    [inversion Hsend; subst; discriminate|].
  destruct (rc =? 1); [inversion Hsend; subst; discriminate|].
  destruct (sendMail x1); inversion Hsend; subst; [discriminate|].
  split; [reflexivity|].
  destruct (usuario_after_store E _ _ st
              (with_auth st
                 (update_where (fun a => Auth.id a =? userId)
                    (set_codigo
                       (bcrypt_hash E (jwt_sign E (otpCode x1)) (genSalt x1))
                       (NOW x1))
                    (autenticacion_usuarios st)))
              userId rc rows _ _ Huniq Hrows eq_refl) as (a & Huser).
  rewrite <- Hcorreo in Huser.
  exact (validarCodigo_accepts E x2 v _ a _ _ _ laws Hvalid Huser Hcodigo Hwithin).
Qed.

(** A [/enviarCodigo] answered 200 has delivered exactly one mail, to the
    address as the request spells it. When the template holds the
    placeholder, the mail is the template with one placeholder replaced by
    the code; when it does not, the mail is the template and carries no
    code. *)
Theorem enviarCodigo_mail
    (E : Env) (x : io) (b : Registro.enviarCodigo_body)
    (st st' : state) (r : response) :
  Registro.enviarCodigo E x b st = (r, st') ->
  status r = 200 ->
  exists m,
    outbox st' = (outbox st ++ [m])%list
    /\ to m = Registro.ec_correo_electronico b
    /\ (occurs "${codigo}" (htmlTemplate E) ->
        exists before after,
          htmlTemplate E = before ++ "${codigo}" ++ after
          /\ html m = before ++ otpCode x ++ after)
    /\ (~ occurs "${codigo}" (htmlTemplate E) -> html m = htmlTemplate E).
Proof.
  unfold Registro.enviarCodigo.
  destruct (Registro.enviarCodigo_errors E b);
    [|intros H; inversion H; subst; discriminate].
  destruct (Registro.preregistrado E _ _ st) as [|[userId rc] rows];
    [intros H; inversion H; subst; discriminate|].
  destruct (rc =? 1); [intros H; inversion H; subst; discriminate|].
  destruct (sendMail x); intros H Hok; inversion H; subst; [|discriminate].
  eexists. split; [reflexivity|]. split; [reflexivity|].
  exact (replace_cases "${codigo}" (otpCode x) (htmlTemplate E)).
Qed.

(** ** Registration: what verifying a code changes *)



Lemma update_where_twice {row : Type} (where_ : row -> bool) (set : row -> row)
    (table : list row) :
  (forall r, where_ (set r) = where_ r) ->
  (forall r, set (set r) = set r) ->
  update_where where_ set (update_where where_ set table)
  = update_where where_ set table.
Proof.
  intros Hw Hs. unfold update_where. rewrite map_map. apply map_ext.
  intros r. destruct (where_ r) eqn:Hr; [now rewrite Hw, Hr, Hs|now rewrite Hr].
Qed.

(** [/validarCodigo] is idempotent: sent again with the same clock, the
    same request gets the same answer and leaves the same state. *)
Theorem validarCodigo_idempotent
    (E : Env) (x : io) (v : Registro.validarCodigo_body) (st : state) :
  Registro.validarCodigo E x v (snd (Registro.validarCodigo E x v st))
  = Registro.validarCodigo E x v st.
Proof.
  unfold Registro.validarCodigo at 2 3.
  destruct (Registro.validarCodigo_errors E v) eqn:Hv;
    [|cbn [snd]; unfold Registro.validarCodigo; now rewrite Hv].
  destruct (Registro.usuario E _ st) as [user|] eqn:Huser;
    [|cbn [snd]; unfold Registro.validarCodigo; now rewrite Hv, Huser].
  destruct (_ >? _) eqn:Hexp;
    [cbn [snd]; unfold Registro.validarCodigo; now rewrite Hv, Huser, Hexp|].
  destruct (Auth.codigo_verificacion user) as [hash|] eqn:Hhash;
    [|cbn [snd]; unfold Registro.validarCodigo;
      now rewrite Hv, Huser, Hexp, Hhash].
  destruct (bcrypt_compare E _ hash) eqn:Hcmp;
    [|cbn [snd]; unfold Registro.validarCodigo;
      now rewrite Hv, Huser, Hexp, Hhash, Hcmp].
  cbn [snd]. unfold Registro.validarCodigo, Registro.usuario in *.
  cbn [autenticacion_usuarios with_auth].
  rewrite Hv, find_update_where by reflexivity.
  rewrite Huser. cbn [option_map]. rewrite Z.eqb_refl.
  cbn [Registro.set_verificado Auth.fecha_codigo_verificacion
       Auth.codigo_verificacion Auth.id].
  rewrite Hexp, Hhash, Hcmp. f_equal.
  unfold with_auth. cbn [autenticacion_usuarios perfil_usuarios outbox].
  now rewrite update_where_twice.
Qed.

(** ** Registration: what completing the profile changes *)

(** [/actualizarUsuario] changes the state only when it answers 200, and
    then it leaves [verificado], [estatus], the address, the stored hash and
    timestamp of the challenge, the birth dates and the outbox as they
    were: completing the registration does not consume the code. *)
Theorem actualizarUsuario_leaves_challenge
    (E : Env) (x : io) (b : Registro.actualizarUsuario_body) (st : state) :
  let r := fst (Registro.actualizarUsuario E x b st) in
  let st' := snd (Registro.actualizarUsuario E x b st) in
  map sin_contrasena (autenticacion_usuarios st')
  = map sin_contrasena (autenticacion_usuarios st)
  /\ map perfil_fijo (perfil_usuarios st') = map perfil_fijo (perfil_usuarios st)
  /\ outbox st' = outbox st
  /\ (status r <> 200 -> st' = st).
Proof.
  unfold Registro.actualizarUsuario.
  destruct (Registro.actualizarUsuario_errors E b);
    [|simpl; repeat split; discriminate].
  destruct (Registro.usuario E _ st) as [user|];
    [|simpl; repeat split; discriminate].
  simpl. unfold update_where. rewrite !map_map.
  split; [|split; [|split; [reflexivity|congruence]]].
  - apply map_ext. intros a. now destruct (Auth.id a =? Auth.id user).
  - apply map_ext. intros p. now destruct (Perfil.id p =? Auth.id user).
Qed.

(** Once [/actualizarUsuario] has answered 200, [/enviarCodigo] issues no
    code for that address any more: whatever the birth date, it answers 400
    or 404 and leaves the state as it is. *)
Theorem completed_registration_gets_no_code
    (E : Env) (x x' : io) (b : Registro.actualizarUsuario_body)
    (s : Registro.enviarCodigo_body) (st st' : state) (r : response) :
  unique_email E (toLowerCase E (Registro.correo_electronico b)) st ->
  Registro.actualizarUsuario E x b st = (r, st') ->
  status r = 200 ->
  Registro.ec_correo_electronico s = Registro.correo_electronico b ->
  snd (Registro.enviarCodigo E x' s st') = st'
  /\ (status (fst (Registro.enviarCodigo E x' s st')) = 400
      \/ status (fst (Registro.enviarCodigo E x' s st')) = 404).
Proof.
  intros Huniq Hrun Hok Hcorreo.
  unfold Registro.actualizarUsuario in Hrun.
  destruct (Registro.actualizarUsuario_errors E b);
    [|inversion Hrun; subst; discriminate].
  destruct (Registro.usuario E _ st) as [user|] eqn:Huser;
    [|inversion Hrun; subst; discriminate].
  inversion Hrun; subst r st'; clear Hrun.
  unfold Registro.enviarCodigo.
  destruct (Registro.enviarCodigo_errors E s); [|split; [reflexivity|now left]].
  rewrite Hcorreo.
  destruct (Registro.preregistrado E _ _ _) as [|[userId rc] rows] eqn:Hrows;
    [split; [reflexivity|now right]|].
  destruct (preregistrado_head_row _ _ _ _ _ _ _ Hrows)
    as (a' & Ha' & Hmatch & _ & Hrc).
  simpl in Ha'. unfold update_where in Ha'.
  apply in_map_iff in Ha' as (a0 & Heq & Ha0).
  assert (Hm0 : sql_eq E (Auth.correo_electronico a0)
                  (toLowerCase E (Registro.correo_electronico b)) = true).
  { rewrite <- Hmatch, <- Heq.
    now destruct (Auth.id a0 =? Auth.id user). }
  pose proof (find_unique _ _ _ Huniq Ha0 Hm0) as Hfind.
  unfold Registro.usuario in Huser. rewrite Huser in Hfind.
  inversion Hfind; subst a0.
  rewrite Z.eqb_refl in Heq. subst a'. simpl in Hrc. subst rc.
  split; [reflexivity|now left].
Qed.

(** A password that [/checkPasswordCompromised] refuses cannot be set
    through [/actualizarContrasena] while the range API answers the same. *)
Theorem refused_password_cannot_be_set
    (E : Env) (x x' : io) (b : Recuperar.actualizarContrasena_body) (st : state) :
  pwnedpasswords x' = pwnedpasswords x ->
  status (Registro.checkPasswordCompromised x (Recuperar.password b)) = 400 ->
  status (fst (Recuperar.actualizarContrasena E x' b st)) <> 200.
Proof.
  intros Hapi Hcheck Hok.
  destruct (Recuperar.actualizarContrasena E x' b st) as [r st'] eqn:Hrun.
  destruct (actualizarContrasena_200 _ _ _ _ _ _ Hrun Hok)
    as (_ & Hregex & Hpwned & _).
  apply passwordRegex_strong in Hregex as (_ & _ & _ & _ & Hlen).
  unfold Registro.checkPasswordCompromised,
    Registro.checkPasswordCompromised_errors in Hcheck.
  rewrite <- Hapi, Hpwned in Hcheck.
  destruct (Recuperar.password b); [simpl in Hlen; lia|discriminate].
Qed.

(** ** Recovery: the code from issue to use *)

Lemma recuperar_stored (E : Env) (x : io) (b : Recuperar.enviarCodigo_body)
    (st st' : state) (r : response) :
  Recuperar.enviarCodigo E x b st = (r, st') ->
  status r = 200 ->
  exists user rows,
    Recuperar.usuarios E (toLowerCase E (Recuperar.ec_email b)) st
    = (user :: rows)%list
    /\ autenticacion_usuarios st'
       = update_where (fun a => Auth.id a =? Auth.id user)
           (set_codigo (bcrypt_hash E (jwt_sign E (otpCode x)) (genSalt x)) (NOW x))
           (autenticacion_usuarios st).
Proof.
  unfold Recuperar.enviarCodigo.
  destruct (Recuperar.enviarCodigo_errors E b);
    [|intros H; inversion H; subst; discriminate].
  destruct (Recuperar.usuarios E _ st) as [|user rows];
    [intros H; inversion H; subst; discriminate|].
  destruct (_ || _); [intros H; inversion H; subst; discriminate|].
  destruct (sendMail x); intros H Hok; inversion H; subst; [|discriminate].
  exists user, rows. split; reflexivity.
Qed.

Lemma usuarios_after_store (E : Env) (correo : string) (st st' : state)
    (user : Auth.row) (rows : list Auth.row) (hashedToken : string) (now : Z) :
  Recuperar.usuarios E correo st = (user :: rows)%list ->
  autenticacion_usuarios st'
  = update_where (fun a => Auth.id a =? Auth.id user)
      (set_codigo hashedToken now) (autenticacion_usuarios st) ->
  exists rows',
    Recuperar.usuarios E correo st'
    = (set_codigo hashedToken now user :: rows')%list.
Proof.
  unfold Recuperar.usuarios. intros Hrows ->.
  rewrite filter_update_where by reflexivity.
  rewrite Hrows. simpl. rewrite Z.eqb_refl. eauto.
Qed.

Lemma truthy_hash (hash : string) :
  hash <> EmptyString -> exists c rest, hash = String c rest.
Proof. destruct hash as [|c rest]; [contradiction|eauto]. Qed.

(** The recovery code just issued is accepted by [/verificarCodigo] within
    ten minutes, and the state stays as the issue left it. *)
Theorem recovery_code_verifies
    (E : Env) (x1 x2 : io)
    (b : Recuperar.enviarCodigo_body) (v : Recuperar.verificarCodigo_body)
    (st st1 : state) (r1 : response) :
  EnvLaws E ->
  bcrypt_hash E (jwt_sign E (otpCode x1)) (genSalt x1) <> EmptyString ->
  Recuperar.enviarCodigo E x1 b st = (r1, st1) -> status r1 = 200 ->
  Recuperar.verificarCodigo_errors E v = [] ->
  Recuperar.vc_email v = Recuperar.ec_email b ->
  Recuperar.vc_codigo v = otpCode x1 ->
  Date_now x2 - NOW x1 <= 10 * 60 * 1000 ->
  Recuperar.verificarCodigo E x2 v st1 = (recuperacion_ok, st1).
Proof.
  intros laws Hhash Hsend Hok Hvalid Hemail Hcodigo Hwithin.
  destruct (recuperar_stored _ _ _ _ _ _ Hsend Hok) as (user & rows & Hrows & Hst1).
  destruct (usuarios_after_store _ _ _ _ _ _ _ _ Hrows Hst1) as (rows' & Hafter).
  destruct (truthy_hash _ Hhash) as (c & rest & Hh).
  unfold Recuperar.verificarCodigo.
  rewrite Hvalid, Hemail, Hafter. simpl. rewrite Hh, <- Hh.
  rewrite diffMinutes_gt.
  replace (10 * 60000 <? Date_now x2 - NOW x1) with false
    by (symmetry; apply Z.ltb_ge; lia).
  rewrite Hcodigo. now rewrite (compare_own_hash E laws).
Qed.

(** A second recovery code replaces the first: after two [/enviarCodigo]
    answered 200 with different codes, the first code is answered "Código
    incorrecto" by [/verificarCodigo], even within its own ten minutes. *)
Theorem recovery_reissue_replaces_previous
    (E : Env) (x1 x2 x3 : io)
    (b : Recuperar.enviarCodigo_body) (v : Recuperar.verificarCodigo_body)
    (st st1 st2 : state) (r1 r2 : response) :
  EnvLaws E ->
  bcrypt_hash E (jwt_sign E (otpCode x2)) (genSalt x2) <> EmptyString ->
  Recuperar.enviarCodigo E x1 b st = (r1, st1) -> status r1 = 200 ->
  Recuperar.enviarCodigo E x2 b st1 = (r2, st2) -> status r2 = 200 ->
  otpCode x1 <> otpCode x2 ->
  NOW x1 <= NOW x2 ->
  Recuperar.verificarCodigo_errors E v = [] ->
  Recuperar.vc_email v = Recuperar.ec_email b ->
  Recuperar.vc_codigo v = otpCode x1 ->
  Date_now x3 - NOW x1 <= 10 * 60 * 1000 ->
  Recuperar.verificarCodigo E x3 v st2 = (recuperacion_incorrecto, st2).
Proof.
  intros laws Hhash _ _ Hsend2 Hok2 Hcodes Hclock Hvalid Hemail Hcodigo Hwithin.
  destruct (recuperar_stored _ _ _ _ _ _ Hsend2 Hok2)
    as (user & rows & Hrows & Hst2).
  destruct (usuarios_after_store _ _ _ _ _ _ _ _ Hrows Hst2) as (rows' & Hafter).
  destruct (truthy_hash _ Hhash) as (c & rest & Hh).
  unfold Recuperar.verificarCodigo.
  rewrite Hvalid, Hemail, Hafter. simpl. rewrite Hh, <- Hh.
  rewrite diffMinutes_gt.
  replace (10 * 60000 <? Date_now x3 - NOW x2) with false
    by (symmetry; apply Z.ltb_ge; lia).
  rewrite Hcodigo.
  destruct (bcrypt_compare E _ _) eqn:Hcmp; [|reflexivity].
  apply (compare_other_code E laws) in Hcmp. contradiction.
Qed.

(** The password is changed without the code: [/actualizarContrasena]
    takes no code and [/verificarCodigo] leaves no trace, so once a recovery
    code has been issued, a request with a well-formed password is answered
    200 for fifteen minutes, whether or not the code was ever submitted. *)
Theorem password_change_needs_no_code
    (E : Env) (x1 x2 : io)
    (b : Recuperar.enviarCodigo_body) (c : Recuperar.actualizarContrasena_body)
    (st st1 : state) (r1 : response) :
  bcrypt_hash E (jwt_sign E (otpCode x1)) (genSalt x1) <> EmptyString ->
  Recuperar.enviarCodigo E x1 b st = (r1, st1) -> status r1 = 200 ->
  Recuperar.actualizarContrasena_errors E c = [] ->
  Recuperar.email c = Recuperar.ec_email b ->
  Recuperar.password c = Recuperar.confirmPassword c ->
  Recuperar.passwordRegex (Recuperar.password c) = true ->
  isPasswordPwned (pwnedpasswords x2) (Recuperar.password c) = false ->
  Date_now x2 - NOW x1 <= 15 * 60 * 1000 ->
  status (fst (Recuperar.actualizarContrasena E x2 c st1)) = 200.
Proof.
  intros Hhash Hsend Hok Hvalid Hemail Hconfirm Hregex Hpwned Hwithin.
  destruct (recuperar_stored _ _ _ _ _ _ Hsend Hok) as (user & rows & Hrows & Hst1).
  destruct (usuarios_after_store _ _ _ _ _ _ _ _ Hrows Hst1) as (rows' & Hafter).
  rewrite <- Hemail in Hafter.
  apply (actualizarContrasena_succeeds_when E x2 c st1
           (set_codigo (bcrypt_hash E (jwt_sign E (otpCode x1)) (genSalt x1))
              (NOW x1) user) rows' (NOW x1));
    try assumption; try reflexivity.
  simpl. destruct (truthy_hash _ Hhash) as (ch & rest & ->). reflexivity.
Qed.

Lemma filter_unique {row : Type} (p : row -> bool) (table : list row) (r : row) :
  (List.length (filter p table) <= 1)%nat ->
  In r table -> p r = true -> filter p table = [r].
Proof.
  intros Hlen Hin Hr.
  assert (Hf : In r (filter p table)) by (apply filter_In; auto).
  destruct (filter p table) as [|r0 [|r1 rest]]; simpl in *;
    [contradiction| |lia].
  destruct Hf as [->|[]]. reflexivity.
Qed.

(** [/actualizarContrasena] looks at the challenge and at nothing else of
    the identity: a code issued by the registration's [/enviarCodigo], for
    an identity that has not completed its registration, opens the password
    change for fifteen minutes as a recovery code does. *)
Theorem registration_code_opens_password_change
    (E : Env) (x1 x2 : io)
    (b : Registro.enviarCodigo_body) (c : Recuperar.actualizarContrasena_body)
    (st st1 : state) (r1 : response) :
  unique_email E (toLowerCase E (Registro.ec_correo_electronico b)) st ->
  bcrypt_hash E (jwt_sign E (otpCode x1)) (genSalt x1) <> EmptyString ->
  Registro.enviarCodigo E x1 b st = (r1, st1) -> status r1 = 200 ->
  Recuperar.actualizarContrasena_errors E c = [] ->
  Recuperar.email c = Registro.ec_correo_electronico b ->
  Recuperar.password c = Recuperar.confirmPassword c ->
  Recuperar.passwordRegex (Recuperar.password c) = true ->
  isPasswordPwned (pwnedpasswords x2) (Recuperar.password c) = false ->
  Date_now x2 - NOW x1 <= 15 * 60 * 1000 ->
  status (fst (Recuperar.actualizarContrasena E x2 c st1)) = 200.
Proof.
  intros Huniq Hhash Hsend Hok Hvalid Hemail Hconfirm Hregex Hpwned Hwithin.
  destruct (enviarCodigo_stored _ _ _ _ _ _ Hsend Hok)
    as (userId & rc & rows & Hrows & Hst1).
  destruct (preregistrado_head _ _ _ _ _ _ _ Hrows) as (a & Ha & Hmatch & Hid).
  pose proof (filter_unique _ _ _ Huniq Ha Hmatch) as Hfilter.
  assert (Hafter :
            Recuperar.usuarios E (toLowerCase E (Recuperar.email c)) st1
            = [set_codigo (bcrypt_hash E (jwt_sign E (otpCode x1)) (genSalt x1))
                 (NOW x1) a]).
  { unfold Recuperar.usuarios. rewrite Hemail, Hst1.
    rewrite filter_update_where by reflexivity.
    rewrite Hfilter. simpl. apply Z.eqb_eq in Hid. now rewrite Hid. }
  apply (actualizarContrasena_succeeds_when E x2 c st1
           (set_codigo (bcrypt_hash E (jwt_sign E (otpCode x1)) (genSalt x1))
              (NOW x1) a) [] (NOW x1));
    try assumption; try reflexivity.
  simpl. destruct (truthy_hash _ Hhash) as (ch & rest & ->). reflexivity.
Qed.

(** A code accepted by [/verificarCodigo] leaves at least five minutes to
    change the password: the second window is measured from the same
    timestamp and is five minutes longer. *)
Theorem verified_code_leaves_five_minutes
    (E : Env) (x x' : io)
    (v : Recuperar.verificarCodigo_body) (c : Recuperar.actualizarContrasena_body)
    (st : state) :
  status (fst (Recuperar.verificarCodigo E x v st)) = 200 ->
  Date_now x' - Date_now x <= 5 * 60 * 1000 ->
  Recuperar.actualizarContrasena_errors E c = [] ->
  Recuperar.email c = Recuperar.vc_email v ->
  Recuperar.password c = Recuperar.confirmPassword c ->
  Recuperar.passwordRegex (Recuperar.password c) = true ->
  isPasswordPwned (pwnedpasswords x') (Recuperar.password c) = false ->
  status (fst (Recuperar.actualizarContrasena E x' c st)) = 200.
Proof.
  intros Hverified Hsoon Hvalid Hemail Hconfirm Hregex Hpwned.
  unfold Recuperar.verificarCodigo in Hverified.
  destruct (Recuperar.verificarCodigo_errors E v); [|discriminate].
  destruct (Recuperar.usuarios E _ st) as [|user rows] eqn:Hrows; [discriminate|].
  destruct (Auth.codigo_verificacion user) as [[|ch hash]|] eqn:Hhash;
    try discriminate.
  destruct (Auth.fecha_codigo_verificacion user) as [issuedAt|] eqn:Hfecha;
    [|discriminate].
  rewrite diffMinutes_gt in Hverified.
  destruct (Z.ltb_spec (10 * 60000) (Date_now x - issuedAt)); [discriminate|].
  rewrite <- Hemail in Hrows.
  apply (actualizarContrasena_succeeds_when E x' c st user rows issuedAt);
    try assumption; [now rewrite Hhash|lia].
Qed.

(** ** Recovery: the captcha step *)

(** Unless the captcha is accepted, [/verificarCorreoCaptcha] answers
    without reading the tables: the answer tells nothing about which
    addresses have an account. *)
Theorem captcha_shields_accounts
    (E : Env) (google : siteverify) (b : Recuperar.verificarCorreoCaptcha_body)
    (st st' : state) :
  google <> Answers true ->
  Recuperar.verificarCorreoCaptcha E google b st
  = Recuperar.verificarCorreoCaptcha E google b st'.
Proof.
  intros Hgoogle. unfold Recuperar.verificarCorreoCaptcha.
  destruct (Recuperar.verificarCorreoCaptcha_errors E b); [|reflexivity].
  destruct google as [|[|]]; [reflexivity|contradiction|reflexivity].
Qed.

(** The captcha step and the issue of the recovery code accept the same
    accounts: with the captcha accepted, [/verificarCorreoCaptcha] answers
    200 for an address exactly when [/enviarCodigo] does not answer 404 for
    it. *)
Theorem captcha_step_and_issue_agree
    (E : Env) (x : io) (b : Recuperar.verificarCorreoCaptcha_body)
    (s : Recuperar.enviarCodigo_body) (st : state) :
  Recuperar.verificarCorreoCaptcha_errors E b = [] ->
  Recuperar.ec_email s = Recuperar.cc_email b ->
  (Recuperar.verificarCorreoCaptcha E (Answers true) b st = correo_verificado
   <-> status (fst (Recuperar.enviarCodigo E x s st)) <> 404).
Proof.
  intros Hvalid Hemail.
  unfold Recuperar.verificarCorreoCaptcha, Recuperar.enviarCodigo,
    Recuperar.enviarCodigo_errors, Recuperar.verificarCorreoCaptcha_errors in *.
  rewrite Hemail.
  destruct (isEmail E (Recuperar.cc_email b)); [|discriminate].
  destruct (notEmpty (Recuperar.cc_tokenCaptcha b)); [|discriminate].
  simpl in *. clear Hvalid.
  destruct (Recuperar.usuarios E _ st) as [|user rows];
    [split; [discriminate|intros H; now contradiction H]|].
  destruct (Auth.registro_completado user =? 1); simpl;
    [|split; [discriminate|intros H; now contradiction H]].
  destruct (String.eqb (Auth.estatus user) "Activo"); simpl;
    [|split; [discriminate|intros H; now contradiction H]].
  destruct (sendMail x); simpl; split; try reflexivity; discriminate.
Qed.

(** ** Registration: looking the member up *)

Lemma unidos_nil (E : Env) (correo : string) (fecha : Perfil.row -> bool)
    (st : state) :
  Registro.unidos E correo fecha st = [] <-> no_match_by E correo fecha st.
Proof.
  unfold Registro.unidos, no_match_by. split.
  - intros Hnil a p Ha Hp Hid Hc.
    destruct (fecha p) eqn:Hf; [|reflexivity]. exfalso.
    assert (Hin : In (Auth.id a, Auth.registro_completado a)
                     (@nil (Z * Z))); [|contradiction].
    rewrite <- Hnil. apply in_flat_map. exists a. split; [assumption|].
    apply in_flat_map. exists p. split; [assumption|].
    apply Z.eqb_eq in Hid. rewrite Hid, Hc, Hf. now left.
  - intros Hno.
    destruct (flat_map _ _) as [|row rows] eqn:Hrows; [reflexivity|].
    assert (Hin : In row (row :: rows)) by (left; reflexivity).
    rewrite <- Hrows in Hin.
    apply in_flat_map in Hin as (a & Ha & Hin).
    apply in_flat_map in Hin as (p & Hp & Hin).
    destruct (Auth.id a =? Perfil.id p) eqn:Hid; simpl in Hin; [|contradiction].
    destruct (sql_eq E (Auth.correo_electronico a) correo) eqn:Hc;
      simpl in Hin; [|contradiction].
    apply Z.eqb_eq in Hid.
    rewrite (Hno a p Ha Hp Hid Hc) in Hin. contradiction.
Qed.

Lemma no_match_by_weaken (E : Env) (correo : string)
    (fecha fecha' : Perfil.row -> bool) (st : state) :
  (forall p, fecha' p = true -> fecha p = true) ->
  no_match_by E correo fecha st -> no_match_by E correo fecha' st.
Proof.
  intros Himp Hno a p Ha Hp Hid Hc.
  destruct (fecha' p) eqn:Hf; [|reflexivity].
  apply Himp in Hf. rewrite (Hno a p Ha Hp Hid Hc) in Hf. discriminate.
Qed.

Lemma answer_found (row : Z * Z) : fst (Registro.answer row) <> 404.
Proof.
  destruct row as [id rc]. unfold Registro.answer.
  destruct (rc =? 1); discriminate.
Qed.

Lemma validarUsuario_404
    (E : Env) (sql_DATE_eq sql_DATE_FORMAT_eq : string -> string -> bool)
    (b : Registro.validarUsuario_body) (st : state) :
  let correo := toLowerCase E (JS.trim (Registro.vu_correo_electronico b)) in
  let fecha := Registro.vu_fecha_nacimiento b in
  fst (Registro.validarUsuario E sql_DATE_eq sql_DATE_FORMAT_eq b st) = 404
  <-> isEmail E correo = true
      /\ isISO8601 E fecha = true
      /\ no_match_by E correo
           (Registro.flexible E sql_DATE_eq sql_DATE_FORMAT_eq fecha) st.
Proof.
  intros correo fecha. unfold Registro.validarUsuario.
  fold correo. fold fecha.
  destruct (isEmail E correo); simpl;
    [|split; [discriminate|intros (H & _); discriminate]].
  destruct (isISO8601 E fecha); simpl;
    [|split; [discriminate|intros (_ & H & _); discriminate]].
  rewrite <- unidos_nil.
  destruct (Registro.unidos E correo
              (fun p => sql_DATE_eq (Perfil.fecha_nacimiento p) fecha) st)
    as [|row rows] eqn:Hrows.
  - destruct (Registro.unidos E correo (fun _ => true) st)
      as [|exact exacts] eqn:Hexact.
    + split; [intros _|reflexivity].
      repeat split. apply unidos_nil.
      apply unidos_nil in Hexact.
      apply (no_match_by_weaken E correo (fun _ => true)); [reflexivity|assumption].
    + destruct (Registro.unidos E correo (Registro.flexible _ _ _ _) st)
        as [|found founds].
      * split; [intros _; repeat split|reflexivity].
      * split; [intros H; now apply answer_found in H
               |intros (_ & _ & H); discriminate].
  - assert (Hflex : Registro.unidos E correo
                      (Registro.flexible E sql_DATE_eq sql_DATE_FORMAT_eq fecha) st
                    <> []).
    { intros Hnil. apply unidos_nil in Hnil.
      apply (no_match_by_weaken E correo _
               (fun p => sql_DATE_eq (Perfil.fecha_nacimiento p) fecha)) in Hnil.
      - apply unidos_nil in Hnil. congruence.
      - intros p Hp. unfold Registro.flexible. now rewrite Hp. }
    split; [|intros (_ & _ & H); contradiction].
    intros H. exfalso.
    destruct (Registro.unidos E correo (fun _ => true) st);
      now apply answer_found in H.
Qed.

(** [/validarUsuario] answers 404 exactly when the request is well formed
    and no stored identity with the address has a birth date that any of
    its three comparisons accepts: the searches after the first one never
    turn a member found into a member missing. *)
Theorem validarUsuario_missing_iff
    (E : Env) (sql_DATE_eq sql_DATE_FORMAT_eq : string -> string -> bool)
    (b : Registro.validarUsuario_body) (st : state) :
  let correo := toLowerCase E (JS.trim (Registro.vu_correo_electronico b)) in
  let fecha := Registro.vu_fecha_nacimiento b in
  fst (Registro.validarUsuario E sql_DATE_eq sql_DATE_FORMAT_eq b st) = 404
  <-> isEmail E correo = true
      /\ isISO8601 E fecha = true
      /\ no_match_by E correo
           (Registro.flexible E sql_DATE_eq sql_DATE_FORMAT_eq fecha) st.
Proof. exact (validarUsuario_404 E sql_DATE_eq sql_DATE_FORMAT_eq b st). Qed.

(** A member [/validarUsuario] does not find, [/enviarCodigo] does not find
    either: for an address without surrounding white space, a 404 of the
    first means a 404 of the second, and no code stored. *)
Theorem missing_for_validarUsuario_missing_for_enviarCodigo
    (E : Env) (sql_DATE_eq sql_DATE_FORMAT_eq : string -> string -> bool)
    (x : io) (b : Registro.enviarCodigo_body) (st : state) :
  JS.trim (Registro.ec_correo_electronico b) = Registro.ec_correo_electronico b ->
  Registro.enviarCodigo_errors E b = [] ->
  fst (Registro.validarUsuario E sql_DATE_eq sql_DATE_FORMAT_eq
         {| Registro.vu_correo_electronico := Registro.ec_correo_electronico b;
            Registro.vu_fecha_nacimiento := Registro.ec_fecha_nacimiento b |} st)
  = 404 ->
  Registro.enviarCodigo E x b st = (res 404 (Error "Usuario no encontrado"), st).
Proof.
  intros Htrim Hvalid Hmissing.
  apply validarUsuario_404 in Hmissing as (_ & _ & Hno).
  simpl in Hno. rewrite Htrim in Hno.
  unfold Registro.enviarCodigo. rewrite Hvalid.
  rewrite (preregistrado_nil E _ _ st); [reflexivity|].
  intros a p Ha Hp Hid Hc.
  pose proof (Hno a p Ha Hp Hid Hc) as Hf.
  unfold Registro.flexible in Hf.
  apply orb_false_elim in Hf as [Hf _].
  now apply orb_false_elim in Hf as [_ Hf].
Qed.

(** ** The code as text *)











(** ** The further properties on the run *)

Lemma isPasswordPwned_case_sensitive_witness :
  isPasswordPwned (fun _ => Data "1e4c9b93f3f0682250b6cf8331b7ee68fd8:5")
    "password" = false.
Proof.
  apply (isPasswordPwned_case_sensitive _ _
           "1e4c9b93f3f0682250b6cf8331b7ee68fd8:5" eq_refl).
  constructor; [|constructor].
  exists "e"%char. split; [vm_compute; right; left; reflexivity|reflexivity].
Defined.

Lemma refused_password_cannot_be_set_witness :
  status
    (fst (Recuperar.actualizarContrasena Plain.env
            (Scenario.world_breached (Scenario.t0 + Scenario.minutes 1) (1 # 4))
            Scenario.change_breached Scenario.st_recovery))
  <> 200.
Proof.
  apply (refused_password_cannot_be_set Plain.env
           (Scenario.world_breached Scenario.t0 (1 # 4))).
  - reflexivity.
  - vm_compute. reflexivity.
Defined.

Lemma unsent_code_still_verifies_witness :
  let x1 := Scenario.world_no_mail Scenario.t0 (1 # 4) in
  let x2 := Scenario.world (Scenario.t0 + Scenario.minutes 5) (1 # 4) in
  let st1 := snd (Registro.enviarCodigo Plain.env x1 Scenario.send Scenario.st0) in
  outbox st1 = outbox Scenario.st0
  /\ fst (Registro.validarCodigo Plain.env x2 (Scenario.verify "325000") st1)
     = verificado_ok.
Proof.
  intros x1 x2 st1.
  apply (unsent_code_still_verifies Plain.env x1 x2 Scenario.send
           (Scenario.verify "325000") Scenario.st0 st1
           (fst (Registro.enviarCodigo Plain.env x1 Scenario.send Scenario.st0))).
  - exact plain_laws.
  - vm_compute. apply le_n.
  - apply surjective_pairing.
  - reflexivity.
  - reflexivity.
  - reflexivity.
  - reflexivity.
  - vm_compute. discriminate.
Defined.

Lemma enviarCodigo_mail_witness :
  let x := Scenario.world Scenario.t0 (1 # 4) in
  exists m,
    outbox (snd (Registro.enviarCodigo Plain.env x Scenario.send Scenario.st0))
    = (outbox Scenario.st0 ++ [m])%list
    /\ to m = "a@b.com".
Proof.
  intros x.
  destruct (enviarCodigo_mail Plain.env x Scenario.send Scenario.st0
              (snd (Registro.enviarCodigo Plain.env x Scenario.send Scenario.st0))
              (fst (Registro.enviarCodigo Plain.env x Scenario.send Scenario.st0))
              (surjective_pairing _) eq_refl)
    as (m & Hout & Hto & _).
  exists m. split; assumption.
Defined.



Lemma completed_registration_gets_no_code_witness :
  let x := Scenario.world Scenario.t0 (1 # 4) in
  let st' := snd (Registro.actualizarUsuario Plain.env x Scenario.complete
                    Scenario.st0) in
  snd (Registro.enviarCodigo Plain.env x Scenario.send st') = st'.
Proof.
  intros x st'.
  apply (completed_registration_gets_no_code Plain.env x x Scenario.complete
           Scenario.send Scenario.st0 st'
           (fst (Registro.actualizarUsuario Plain.env x Scenario.complete
                   Scenario.st0))).
  - vm_compute. apply le_n.
  - apply surjective_pairing.
  - reflexivity.
  - reflexivity.
Defined.

Lemma recovery_code_verifies_witness :
  let x1 := Scenario.world (Scenario.t0 + Scenario.minutes 20) (1 # 2) in
  let x2 := Scenario.world (Scenario.t0 + Scenario.minutes 25) (1 # 2) in
  let st1 := snd (Recuperar.enviarCodigo Plain.env x1 Scenario.send_recovery
                    Scenario.st_recovery) in
  Recuperar.verificarCodigo Plain.env x2 (Scenario.verify_recovery "550000") st1
  = (recuperacion_ok, st1).
Proof.
  intros x1 x2 st1.
  apply (recovery_code_verifies Plain.env x1 x2 Scenario.send_recovery
           (Scenario.verify_recovery "550000") Scenario.st_recovery st1
           (fst (Recuperar.enviarCodigo Plain.env x1 Scenario.send_recovery
                   Scenario.st_recovery))).
  - exact plain_laws.
  - discriminate.
  - apply surjective_pairing.
  - reflexivity.
  - reflexivity.
  - reflexivity.
  - reflexivity.
  - vm_compute. discriminate.
Defined.

Lemma recovery_reissue_replaces_previous_witness :
  let x1 := Scenario.world (Scenario.t0 + Scenario.minutes 20) (1 # 4) in
  let x2 := Scenario.world (Scenario.t0 + Scenario.minutes 21) (1 # 2) in
  let x3 := Scenario.world (Scenario.t0 + Scenario.minutes 22) (1 # 2) in
  let st1 := snd (Recuperar.enviarCodigo Plain.env x1 Scenario.send_recovery
                    Scenario.st_recovery) in
  let st2 := snd (Recuperar.enviarCodigo Plain.env x2 Scenario.send_recovery st1) in
  Recuperar.verificarCodigo Plain.env x3 (Scenario.verify_recovery "325000") st2
  = (recuperacion_incorrecto, st2).
Proof.
  intros x1 x2 x3 st1 st2.
  apply (recovery_reissue_replaces_previous Plain.env x1 x2 x3
           Scenario.send_recovery (Scenario.verify_recovery "325000")
           Scenario.st_recovery st1 st2
           (fst (Recuperar.enviarCodigo Plain.env x1 Scenario.send_recovery
                   Scenario.st_recovery))
           (fst (Recuperar.enviarCodigo Plain.env x2 Scenario.send_recovery st1))).
  - exact plain_laws.
  - discriminate.
  - apply surjective_pairing.
  - reflexivity.
  - apply surjective_pairing.
  - reflexivity.
  - vm_compute. discriminate.
  - vm_compute. discriminate.
  - reflexivity.
  - reflexivity.
  - reflexivity.
  - vm_compute. discriminate.
Defined.

Lemma password_change_needs_no_code_witness :
  let x1 := Scenario.world (Scenario.t0 + Scenario.minutes 20) (1 # 2) in
  let x2 := Scenario.world (Scenario.t0 + Scenario.minutes 34) (1 # 2) in
  let st1 := snd (Recuperar.enviarCodigo Plain.env x1 Scenario.send_recovery
                    Scenario.st_recovery) in
  status (fst (Recuperar.actualizarContrasena Plain.env x2 Scenario.change st1))
  = 200.
Proof.
  intros x1 x2 st1.
  apply (password_change_needs_no_code Plain.env x1 x2 Scenario.send_recovery
           Scenario.change Scenario.st_recovery st1
           (fst (Recuperar.enviarCodigo Plain.env x1 Scenario.send_recovery
                   Scenario.st_recovery))).
  - discriminate.
  - apply surjective_pairing.
  - reflexivity.
  - reflexivity.
  - reflexivity.
  - reflexivity.
  - reflexivity.
  - vm_compute. reflexivity.
  - vm_compute. discriminate.
Defined.

(** The member of the scenario, who has not completed the registration,
    gets a password through the recovery endpoint. *)
Lemma registration_code_opens_password_change_witness :
  let x1 := Scenario.world Scenario.t0 (1 # 4) in
  let x2 := Scenario.world (Scenario.t0 + Scenario.minutes 12) (1 # 4) in
  let st1 := snd (Registro.enviarCodigo Plain.env x1 Scenario.send Scenario.st0) in
  status (fst (Recuperar.actualizarContrasena Plain.env x2 Scenario.change st1))
  = 200.
Proof.
  intros x1 x2 st1.
  apply (registration_code_opens_password_change Plain.env x1 x2 Scenario.send
           Scenario.change Scenario.st0 st1
           (fst (Registro.enviarCodigo Plain.env x1 Scenario.send Scenario.st0))).
  - vm_compute. apply le_n.
  - discriminate.
  - apply surjective_pairing.
  - reflexivity.
  - reflexivity.
  - reflexivity.
  - reflexivity.
  - reflexivity.
  - vm_compute. reflexivity.
  - vm_compute. discriminate.
Defined.

Lemma verified_code_leaves_five_minutes_witness :
  status
    (fst (Recuperar.actualizarContrasena Plain.env
            (Scenario.world (Scenario.t0 + Scenario.minutes 14) (1 # 4))
            Scenario.change Scenario.st_recovery))
  = 200.
Proof.
  apply (verified_code_leaves_five_minutes Plain.env
           (Scenario.world (Scenario.t0 + Scenario.minutes 9) (1 # 4)) _
           (Scenario.verify_recovery "325000")).
  - reflexivity.
  - vm_compute. discriminate.
  - reflexivity.
  - reflexivity.
  - reflexivity.
  - reflexivity.
  - vm_compute. reflexivity.
Defined.

Lemma captcha_shields_accounts_witness :
  Recuperar.verificarCorreoCaptcha Plain.env (Answers false) Scenario.captcha
    Scenario.st0
  = Recuperar.verificarCorreoCaptcha Plain.env (Answers false) Scenario.captcha
      Scenario.st_recovery.
Proof.
  apply captcha_shields_accounts. discriminate.
Defined.

Lemma captcha_step_and_issue_agree_witness :
  Recuperar.verificarCorreoCaptcha Plain.env (Answers true) Scenario.captcha
    Scenario.st_recovery
  = correo_verificado
  <-> status
        (fst (Recuperar.enviarCodigo Plain.env
                (Scenario.world Scenario.t0 (1 # 4)) Scenario.send_recovery
                Scenario.st_recovery))
      <> 404.
Proof.
  apply captcha_step_and_issue_agree; reflexivity.
Defined.

Lemma missing_for_validarUsuario_missing_for_enviarCodigo_witness :
  Registro.enviarCodigo Plain.env (Scenario.world Scenario.t0 (1 # 4))
    Scenario.send_wrong_date Scenario.st0
  = (res 404 (Error "Usuario no encontrado"), Scenario.st0).
Proof.
  apply (missing_for_validarUsuario_missing_for_enviarCodigo Plain.env
           String.eqb String.eqb); reflexivity.
Defined.

(** ** Questions and answers *)




Section Preguntas_properties.

Variable htmlTemplate : string.
Variable replaceAll : string -> string -> string -> string.
Variable DATE_FORMAT : Z -> string.
Variable order_by_creado_en_desc
  : list Preguntas.Mensaje.row -> list Preguntas.Mensaje.row.
Variable order_by_respondido_en
  : list Preguntas.Respuesta.row -> list Preguntas.Respuesta.row.



(** [/:id/responder] stores the answer whatever happens to the mail: for a
    non-empty answer to a question found it answers 200 and stores the
    answer, and it delivers a mail, to the address of the question, exactly
    when the question came from a visitor and the mail service accepted
    it. *)
Theorem responder_stores_before_mail
    (x : io) (resend : RegistroResend.resend_result)
    (mensajeId : Z) (respuesta : string) (st : Preguntas.state)
    (mensaje : Preguntas.Mensaje.row) :
  respuesta <> EmptyString ->
  Preguntas.buscar mensajeId st = Some mensaje ->
  let '(status, _, st') :=
    Preguntas.responder htmlTemplate replaceAll x resend mensajeId respuesta st in
  status = 200
  /\ (exists por,
         Preguntas.mensajes_contacto_respuestas st'
         = (Preguntas.mensajes_contacto_respuestas st
            ++ [ {| Preguntas.Respuesta.mensaje_id := mensajeId;
                    Preguntas.Respuesta.respuesta := JS.trim respuesta;
                    Preguntas.Respuesta.respondido_por := por;
                    Preguntas.Respuesta.respondido_en := NOW x |} ])%list)
  /\ ((exists m, Preguntas.outbox st' = (Preguntas.outbox st ++ [m])%list
                 /\ to m = Preguntas.Mensaje.correo_electronico mensaje)
      \/ Preguntas.outbox st' = Preguntas.outbox st)
  /\ (Preguntas.outbox st' <> Preguntas.outbox st
      <-> Preguntas.truthy (Preguntas.Mensaje.id_usuario mensaje) = false
          /\ resend = RegistroResend.Sent).
Proof.
  intros Hne Hfound. unfold Preguntas.responder, chain, notEmpty.
  apply String.eqb_neq in Hne. rewrite Hne, Hfound. simpl.
  assert (Hgrow : forall (l : list mail) m, (l ++ [m])%list <> l).
  { intros l m H. apply (f_equal (@List.length mail)) in H.
    rewrite length_app in H. simpl in H. lia. }
  destruct (Preguntas.truthy (Preguntas.Mensaje.id_usuario mensaje));
    [|destruct resend]; simpl;
    (split; [reflexivity|]); (split; [eexists; reflexivity|]);
    (split; [first [now right|left; eexists; split; reflexivity]|]);
    (split; [intros H|intros (H1 & H2)]);
    try (now contradiction H); try discriminate;
    try (split; reflexivity).
  apply Hgrow.
Qed.

Lemma trimStart_blank (s : string) :
  blank s = true -> JS.trimStart s = EmptyString.
Proof.
  unfold blank. induction s as [|c s IH]; [reflexivity|].
  simpl. intros H. apply andb_prop in H as [Hc Hs].
  rewrite Hc. now apply IH.
Qed.

(** The check for an empty answer runs before the answer is trimmed: an
    answer of white space only is accepted by [/:id/responder-admin] and
    stored as the empty string. *)
Theorem blank_answer_stored_empty
    (x : io) (mensajeId : Z) (respuesta : string) (st : Preguntas.state)
    (mensaje : Preguntas.Mensaje.row) :
  respuesta <> EmptyString ->
  blank respuesta = true ->
  Preguntas.buscar mensajeId st = Some mensaje ->
  let '(status, _, st') := Preguntas.responder_admin x mensajeId respuesta st in
  status = 200
  /\ Preguntas.mensajes_contacto_respuestas st'
     = (Preguntas.mensajes_contacto_respuestas st
        ++ [ {| Preguntas.Respuesta.mensaje_id := mensajeId;
                Preguntas.Respuesta.respuesta := EmptyString;
                Preguntas.Respuesta.respondido_por := None;
                Preguntas.Respuesta.respondido_en := NOW x |} ])%list.
Proof.
  intros Hne Hblank Hfound. unfold Preguntas.responder_admin, chain, notEmpty.
  apply String.eqb_neq in Hne. rewrite Hne, Hfound. simpl.
  unfold JS.trim. rewrite (trimStart_blank _ Hblank). split; reflexivity.
Qed.

(** An answer stored shows in [GET /]: after [/:id/responder-admin] has
    answered 200, every entry of the list with that id reads "respondido"
    and has the trimmed answer among its responses, and there is such an
    entry. *)
Theorem answered_question_is_listed
    (x : io) (mensajeId : Z) (respuesta : string) (st st' : Preguntas.state)
    (body : Preguntas.json) :
  keeps_rows order_by_creado_en_desc ->
  keeps_rows order_by_respondido_en ->
  Preguntas.responder_admin x mensajeId respuesta st = (200, body, st') ->
  let listed :=
    Preguntas.consultar DATE_FORMAT order_by_creado_en_desc
      order_by_respondido_en st' in
  (exists p, In p listed /\ Preguntas.p_id p = mensajeId)
  /\ (forall p, In p listed -> Preguntas.p_id p = mensajeId ->
                Preguntas.p_estado p = "respondido"
                /\ In (JS.trim respuesta) (Preguntas.responses p)).
Proof.
  intros Hmsgs Hresps Hrun listed.
  unfold Preguntas.responder_admin in Hrun.
  destruct (chain _ _); [|discriminate].
  destruct (Preguntas.buscar mensajeId st) as [mensaje|] eqn:Hfound;
    [|discriminate].
  inversion Hrun; subst body st'; clear Hrun.
  assert (Hall : forall p, In p listed -> Preguntas.p_id p = mensajeId ->
                    Preguntas.p_estado p = "respondido"
                    /\ In (JS.trim respuesta) (Preguntas.responses p)).
  { intros p Hp Hid. unfold listed, Preguntas.consultar in Hp.
    apply in_map_iff in Hp as (m & <- & Hm).
    cbn [Preguntas.p_id Preguntas.p_estado Preguntas.responses] in *.
    apply (proj1 (Hmsgs _ _)) in Hm.
    cbn [Preguntas.guardar Preguntas.mensajes_contacto
         Preguntas.mensajes_contacto_respuestas] in *.
    unfold update_where in Hm.
    apply in_map_iff in Hm as (m0 & <- & _).
    destruct (Preguntas.Mensaje.id m0 =? mensajeId) eqn:Hm0.
    - split; [reflexivity|].
      apply in_map_iff.
      exists {| Preguntas.Respuesta.mensaje_id := mensajeId;
                Preguntas.Respuesta.respuesta := JS.trim respuesta;
                Preguntas.Respuesta.respondido_por := None;
                Preguntas.Respuesta.respondido_en := NOW x |}.
      split; [reflexivity|].
      apply (proj2 (Hresps _ _)), filter_In. split.
      + apply in_or_app. right. left. reflexivity.
      + cbn [Preguntas.Respuesta.mensaje_id Preguntas.set_respondido
             Preguntas.Mensaje.id].
        apply Z.eqb_eq in Hm0. rewrite Hm0. apply Z.eqb_refl.
    - apply Z.eqb_neq in Hm0. contradiction. }
  split; [|exact Hall].
  unfold Preguntas.buscar in Hfound. apply find_some in Hfound as [Hin Hid].
  apply Z.eqb_eq in Hid.
  eexists. split.
  - unfold listed, Preguntas.consultar. apply in_map, (proj2 (Hmsgs _ _)).
    cbn [Preguntas.guardar Preguntas.mensajes_contacto].
    unfold update_where. apply in_map. exact Hin.
  - cbn [Preguntas.p_id].
    destruct (Preguntas.Mensaje.id mensaje =? mensajeId); exact Hid.
Qed.

End Preguntas_properties.

(** ** The captcha fails closed *)

(** Unlike the breach check, the captcha fails closed: when Google rejects
    the token, or the request to Google fails, neither [/validarCaptcha] nor
    [/verificarCorreoCaptcha] answers 200. *)
Theorem captcha_fails_closed
    (E : Env) (google : siteverify) (tokenCaptcha : string)
    (b : Recuperar.verificarCorreoCaptcha_body) (st : state) :
  google <> Answers true ->
  status (Registro.validarCaptcha google tokenCaptcha) <> 200
  /\ status (Recuperar.verificarCorreoCaptcha E google b st) <> 200.
Proof.
  intros Hgoogle.
  unfold Registro.validarCaptcha, Recuperar.verificarCorreoCaptcha.
  destruct (notEmpty tokenCaptcha), (Recuperar.verificarCorreoCaptcha_errors E b),
    google as [|[|]]; simpl; split; try discriminate; contradiction.
Qed.

Lemma captcha_fails_closed_witness :
  status (Registro.validarCaptcha Rejects "03AGdBq24") <> 200
  /\ status (Recuperar.verificarCorreoCaptcha Plain.env Rejects Scenario.captcha
               Scenario.st_recovery) <> 200.
Proof.
  apply captcha_fails_closed. discriminate.
Defined.

(** ** Questions and answers on the run *)

Lemma responder_stores_before_mail_witness :
  fst (fst (Preguntas.responder "<p>{{respuesta}}</p>" (fun _ _ s => s)
              (Scenario.world Scenario.t0 (1 # 4)) RegistroResend.Failed
              1 "A las nueve. " Scenario.questions))
  = 200.
Proof.
  pose proof (responder_stores_before_mail "<p>{{respuesta}}</p>"
                (fun _ _ s => s) (Scenario.world Scenario.t0 (1 # 4))
                RegistroResend.Failed 1 "A las nueve. " Scenario.questions
                (Scenario.question 1 None)) as H.
  destruct (Preguntas.responder _ _ _ _ _ _ _) as [[status body] st'].
  apply H; [discriminate|reflexivity].
Defined.

Lemma blank_answer_stored_empty_witness :
  fst (fst (Preguntas.responder_admin (Scenario.world Scenario.t0 (1 # 4))
              2 "   " Scenario.questions))
  = 200.
Proof.
  pose proof (blank_answer_stored_empty (Scenario.world Scenario.t0 (1 # 4))
                2 "   " Scenario.questions (Scenario.question 2 (Some 7))) as H.
  destruct (Preguntas.responder_admin _ _ _ _) as [[status body] st'].
  apply H; [discriminate|reflexivity|reflexivity].
Defined.

Lemma answered_question_is_listed_witness :
  let x := Scenario.world Scenario.t0 (1 # 4) in
  let st' := snd (Preguntas.responder_admin x 1 " A las nueve." Scenario.questions) in
  exists p,
    In p (Preguntas.consultar JS.toString (fun l => l)
            (fun l => l) st')
    /\ Preguntas.p_id p = 1.
Proof.
  intros x st'.
  apply (answered_question_is_listed JS.toString
           (fun l => l) (fun l => l) x 1 " A las nueve." Scenario.questions st'
           (Preguntas.Message "Respuesta guardada correctamente (admin).")).
  - intros rows r. reflexivity.
  - intros rows r. reflexivity.
  - reflexivity.
Defined.
